(** * Bankify: the account and ledger core of [bank_management.py]

    A shallow embedding of the classes [Account] and [Bank] and the
    properties of their operations.

    - Amounts are whatever numeric objects the caller passes: the code only
      uses [0], [<], [<=], [>], [+=] and [-=] on them. This interface is the
      class [PyNum]; it is instantiated with Python's [int] (as [Z]) and with
      Python's [float] (IEEE 754 binary64, as [spec_float]).
    - [Account] objects are mutable and shared by reference between the
      caller and the dictionary [Bank.accounts]; the object store is explicit.
    - [Bank.accounts] is a Python [dict]: an insertion-ordered association
      of account numbers to references.
    - [print] appends a message to the console log.
    - [random.randint] is an oracle: the sequence of its answers. *)

From Stdlib Require Import ZArith Lia Bool String.
From Stdlib Require Import Floats.SpecFloat.
From stdpp Require Import base option list.

#[local] Open Scope string_scope.
#[local] Open Scope list_scope.
#[local] Open Scope Z_scope.

(** ** Numbers, as the code uses them *)

Class PyNum (A : Type) := {
  zero : A;                 (* the literal [0] *)
  add : A -> A -> A;        (* [x + y], from [+=] *)
  sub : A -> A -> A;        (* [x - y], from [-=] *)
  ltb : A -> A -> bool;     (* [x < y] *)
  leb : A -> A -> bool;     (* [x <= y] *)
}.

(** [x > y] is the reflected [y < x], for [int] and for [float]. *)
Definition gtb {A} `{PyNum A} (x y : A) : bool := ltb y x.

(** What the comparisons guarantee for [int] and for [float] alike
    (a NaN compares false with everything). *)
Class PyNumOrder (A : Type) `{PyNum A} : Prop := {
  leb_trans : forall x y z : A, leb x y = true -> leb y z = true -> leb x z = true;
  leb_not_ltb : forall x y : A, leb x y = true -> ltb y x = false;
  ltb_not_leb : forall x y : A, ltb x y = true -> leb y x = false;
}.

(** Arithmetic that is exact: a total order, and sums and differences that
    keep their sign. True of [int]; a [float] infinity breaks the last law. *)
Class PyNumExact (A : Type) `{PyNum A} : Prop := {
  exact_order :: PyNumOrder A;
  ltb_total : forall x y : A, ltb x y = false -> leb y x = true;
  add_nonneg : forall x y : A, leb zero x = true -> ltb zero y = true -> leb zero (add x y) = true;
  sub_nonneg : forall x y : A, leb y x = true -> leb zero (sub x y) = true;
}.

(** Python's [int]: exact arithmetic. An [int] beyond the range of [float]
    cannot be formatted with [:.2f] ([OverflowError]); the accepted
    branches of [deposit] and [withdraw], and [__str__], format after the
    balance is assigned, so for such amounts the model gives the state that
    the call leaves, not its return or its output. What is said of returns
    and of output below is said of [float]. *)
#[export] Instance int_num : PyNum Z := {|
  zero := 0; add := Z.add; sub := Z.sub; ltb := Z.ltb; leb := Z.leb |}.

(** Python's [float]: binary64, 53 bits of precision, exponents below 1024. *)
Definition float64 : Type := spec_float.
Definition prec64 : Z := 53.
Definition emax64 : Z := 1024.

#[export] Instance float_num : PyNum float64 := {|
  zero := S754_zero false;
  add := SFadd prec64 emax64;
  sub := SFsub prec64 emax64;
  ltb := SFltb;
  leb := SFleb |}.

Definition inf : float64 := S754_infinity false.
Definition nan : float64 := S754_nan.
(** [float(n)] for an integer that needs no rounding. *)
Definition float_of_Z (n : Z) : float64 := binary_normalize prec64 emax64 n 0 false.

(** The comparison of two finite floats of one sign, on exponent then
    mantissa. *)
Definition cmp_mag (m1 : positive) (e1 : Z) (m2 : positive) (e2 : Z) : comparison :=
  match Z.compare e1 e2 with
  | Lt => Lt
  | Gt => Gt
  | Eq => Pos.compare_cont Eq m1 m2
  end.

(** A reference to an [Account] object is its allocation index. *)
Abbreviation ref := nat (only parsing).

(** ** Account *)

Section Bankify.

Context {A : Type} `{PyNum A}.

Record Account : Type := mkAccount {
  account_number : Z;
  name : string;
  account_type : string;
  balance : A;
}.

Definition set_balance (self : Account) (b : A) : Account :=
  mkAccount (account_number self) (name self) (account_type self) b.

(** What [print] writes, one constructor per message of the code. The
    amounts that a message formats are kept as values. *)
Inductive Msg : Type :=
| MsgDeposited (amount new_balance : A)
| MsgInvalidDeposit
| MsgWithdrew (amount new_balance : A)
| MsgInsufficientFunds
| MsgInvalidWithdrawal
| MsgNegativeInitialDeposit
| MsgAccountCreated (holder : string) (number : Z)
| MsgAccountClosed (number : Z)
| MsgAccountNotFound
| MsgNoAccounts
| MsgAllAccountsHeader
| MsgAccountDetails (acc : Account)
| MsgSeparator.

(** The result of a method on one object: the new object, what is returned,
    and what was printed. *)
Record Outcome (R : Type) : Type := mkOutcome {
  self_after : Account;
  returned : R;
  printed : list Msg;
}.
Arguments mkOutcome {R}.
Arguments self_after {R}.
Arguments returned {R}.
Arguments printed {R}.

Definition deposit (self : Account) (amount : A) : Outcome bool :=
  if gtb amount zero then
    let self' := set_balance self (add (balance self) amount) in
    mkOutcome self' true [MsgDeposited amount (balance self')]
  else
    mkOutcome self false [MsgInvalidDeposit].

Definition withdraw (self : Account) (amount : A) : Outcome bool :=
  if ltb zero amount && leb amount (balance self) then
    let self' := set_balance self (sub (balance self) amount) in
    mkOutcome self' true [MsgWithdrew amount (balance self')]
  else if gtb amount (balance self) then
    mkOutcome self false [MsgInsufficientFunds]
  else
    mkOutcome self false [MsgInvalidWithdrawal].

Definition get_balance (self : Account) : A := balance self.

(** ** The dictionary [Bank.accounts]

    A Python [dict] keeps its keys unique and in insertion order. *)

Definition dict (V : Type) : Type := list (Z * V).

Fixpoint dict_get {V} (k : Z) (d : dict V) : option V :=
  match d with
  | [] => None
  | (k', v) :: d' => if Z.eqb k k' then Some v else dict_get k d'
  end.

(** [k in d] *)
Definition dict_contains {V} (k : Z) (d : dict V) : bool :=
  match dict_get k d with Some _ => true | None => false end.

(** [d[k] = v]: a present key keeps its place, a new one goes last. *)
Fixpoint dict_set {V} (k : Z) (v : V) (d : dict V) : dict V :=
  match d with
  | [] => [(k, v)]
  | (k', v') :: d' =>
      if Z.eqb k k' then (k, v) :: d' else (k', v') :: dict_set k v d'
  end.

(** [del d[k]], which the code only runs on a present key. Keys are
    unique, so dropping every entry under [k] drops the one there is. *)
Fixpoint dict_del {V} (k : Z) (d : dict V) : dict V :=
  match d with
  | [] => []
  | (k', v') :: d' =>
      if Z.eqb k k' then dict_del k d' else (k', v') :: dict_del k d'
  end.

(** [d.values()] *)
Definition dict_values {V} (d : dict V) : list V := map snd d.
Definition dict_keys {V} (d : dict V) : list Z := map fst d.

(** ** The program state

    [heap] holds every [Account] object ever constructed, at the reference
    it was allocated at; [accounts] is the dictionary of the one [Bank];
    [entropy] and [draws] are the random module: the answers it will give
    and how many it has given. *)


Record State : Type := mkState {
  heap : list Account;
  bank_name : string;
  accounts : dict ref;
  entropy : nat -> Z;
  draws : nat;
  stdout : list Msg;
}.

Definition print (m : list Msg) (s : State) : State :=
  mkState (heap s) (bank_name s) (accounts s) (entropy s) (draws s) (stdout s ++ m).

Definition set_accounts (d : dict ref) (s : State) : State :=
  mkState (heap s) (bank_name s) d (entropy s) (draws s) (stdout s).

Definition set_heap (h : list Account) (s : State) : State :=
  mkState h (bank_name s) (accounts s) (entropy s) (draws s) (stdout s).

(** [random.randint(lo, hi)]: some integer between [lo] and [hi], both
    included, decided by the next answer of the generator. *)
Definition randint (lo hi : Z) (s : State) : Z * State :=
  (lo + entropy s (draws s) mod (hi - lo + 1),
   mkState (heap s) (bank_name s) (accounts s) (entropy s) (S (draws s)) (stdout s)).

(** The state after [n] more calls of [randint]. *)
Definition advance (n : nat) (s : State) : State :=
  mkState (heap s) (bank_name s) (accounts s) (entropy s) (n + draws s) (stdout s).

(** The answer of the [k]-th next call [randint(1000000000, 9999999999)]. *)
Definition drawn (s : State) (k : nat) : Z :=
  1000000000 + entropy s (draws s + k)%nat mod (9999999999 - 1000000000 + 1).

(** [Account(...)]: a new object at the next free reference. *)
Definition new_Account (number : Z) (holder type : string) (b : A) (s : State)
  : ref * State :=
  (length (heap s), set_heap (heap s ++ [mkAccount number holder type b]) s).

(** A method call [obj.m(...)] on the object behind a reference: the object
    is updated in place, so every holder of the reference sees the change.
    [None] stands for a reference to no object, which Python never has. *)
Definition call {R} (m : Account -> Outcome R) (r : ref) (s : State)
  : option (R * State) :=
  match heap s !! r with
  | Some self =>
      let o := m self in
      Some (returned o, print (printed o) (set_heap (<[r := self_after o]> (heap s)) s))
  | None => None
  end.

(** ** Bank *)

(** [Bank(name)], in a fresh process. *)
Definition Bank_init (rnd : nat -> Z) (bname : string) : State :=
  mkState [] bname [] rnd 0%nat [].

Definition lowest_number : Z := 1000000000.
Definition highest_number : Z := 9999999999.

(** The loop [while True] of [_generate_account_number]; [fuel] bounds the
    number of rounds, and [None] is a loop that has not ended by then. *)
Fixpoint _generate_account_number (fuel : nat) (s : State) : option (Z * State) :=
  match fuel with
  | O => None
  | S fuel' =>
      let '(number, s') := randint lowest_number highest_number s in
      if negb (dict_contains number (accounts s')) then Some (number, s')
      else _generate_account_number fuel' s'
  end.

(** The inner [option] is Python's [None] or the new object. *)
Definition create_account (fuel : nat) (holder type : string) (initial_deposit : A)
    (s : State) : option (option ref * State) :=
  if ltb initial_deposit zero then
    Some (None, print [MsgNegativeInitialDeposit] s)
  else
    match _generate_account_number fuel s with
    | None => None
    | Some (number, s1) =>
        let '(new_account, s2) := new_Account number holder type initial_deposit s1 in
        let s3 := set_accounts (dict_set number new_account (accounts s2)) s2 in
        Some (Some new_account, print [MsgAccountCreated holder number] s3)
    end.

Definition find_account (number : Z) (s : State) : option ref :=
  dict_get number (accounts s).

Definition close_account (number : Z) (s : State) : bool * State :=
  if dict_contains number (accounts s) then
    (true, print [MsgAccountClosed number]
             (set_accounts (dict_del number (accounts s)) s))
  else
    (false, print [MsgAccountNotFound] s).

(** [print(account)] goes through [__str__]. *)
Definition print_account (s : State) (r : ref) : list Msg :=
  match heap s !! r with
  | Some acc => [MsgAccountDetails acc; MsgSeparator]
  | None => []
  end.

Definition list_all_accounts (s : State) : State :=
  match accounts s with
  | [] => print [MsgNoAccounts] s
  | _ =>
      print (MsgAllAccountsHeader :: concat (map (print_account s) (dict_values (accounts s)))) s
  end.

(** ** Runs of the core operations *)

Inductive Op : Type :=
| OpCreate (holder type : string) (initial_deposit : A)
| OpDeposit (r : ref) (amount : A)
| OpWithdraw (r : ref) (amount : A)
| OpGetBalance (r : ref)
| OpFind (number : Z)
| OpClose (number : Z)
| OpListAll.

Definition run (fuel : nat) (op : Op) (s : State) : option State :=
  match op with
  | OpCreate holder type d => snd <$> create_account fuel holder type d s
  | OpDeposit r a => snd <$> call (fun self => deposit self a) r s
  | OpWithdraw r a => snd <$> call (fun self => withdraw self a) r s
  | OpGetBalance r => (fun _ => s) <$> heap s !! r
  | OpFind n => Some s
  | OpClose n => Some (snd (close_account n s))
  | OpListAll => Some (list_all_accounts s)
  end.

Fixpoint run_all (fuel : nat) (ops : list Op) (s : State) : option State :=
  match ops with
  | [] => Some s
  | op :: ops' =>
      match run fuel op s with
      | Some s' => run_all fuel ops' s'
      | None => None
      end
  end.

(** The states a program can be in: a bank was made, then operations ran. *)
Inductive reachable : State -> Prop :=
| reachable_init rnd bname : reachable (Bank_init rnd bname)
| reachable_step s op fuel s' :
    reachable s -> run fuel op s = Some s' -> reachable s'.

(** ** State predicates *)

(** §3 of the data model: no balance is negative. *)
Definition balances_nonneg (s : State) : Prop :=
  forall r acc, heap s !! r = Some acc -> leb zero (balance acc) = true.

(** Every key of the dictionary is the number of the account it maps to. *)
Definition keys_match (s : State) : Prop :=
  forall n r, dict_get n (accounts s) = Some r ->
    exists acc, heap s !! r = Some acc /\ account_number acc = n.

(** The mapping is a dictionary: no key occurs twice. *)
Definition keys_unique (s : State) : Prop := NoDup (dict_keys (accounts s)).

(** No object is filed under two numbers. *)
Definition no_alias (s : State) : Prop :=
  forall n1 n2 r, dict_get n1 (accounts s) = Some r ->
    dict_get n2 (accounts s) = Some r -> n1 = n2.

(** The account filed under a number, as the ledger's mapping shows it. *)
Definition account_of (s : State) (n : Z) : option Account :=
  match find_account n s with
  | Some r => heap s !! r
  | None => None
  end.

(** The fields that [deposit] and [withdraw] never assign. *)
Definition same_identity (acc acc' : Account) : Prop :=
  account_number acc' = account_number acc /\
  name acc' = name acc /\
  account_type acc' = account_type acc.

(** The three shapes of a step: the state is kept up to the console and
    the generator; one object gets a new balance; one object is made and
    filed; one key is deleted. *)
Inductive effect (s s' : State) : Prop :=
| effect_none :
    heap s' = heap s -> accounts s' = accounts s -> effect s s'
| effect_update r self self' :
    heap s !! r = Some self -> same_identity self self' ->
    heap s' = <[r := self']> (heap s) -> accounts s' = accounts s ->
    effect s s'
| effect_create n acc :
    account_number acc = n ->
    heap s' = heap s ++ [acc] ->
    accounts s' = dict_set n (length (heap s)) (accounts s) ->
    effect s s'
| effect_close n :
    heap s' = heap s -> accounts s' = dict_del n (accounts s) -> effect s s'.

End Bankify.

Arguments Account A : clear implicits.
Arguments Msg A : clear implicits.
Arguments Outcome A R : clear implicits.
Arguments State A : clear implicits.
Arguments Op A : clear implicits.
Arguments mkOutcome {A R}.
Arguments self_after {A R}.
Arguments returned {A R}.
Arguments printed {A R}.

(** ** Concrete runs *)

(** A generator that answers 1000000000 three times, then 1000000007. *)
Definition repeating_generator : nat -> Z :=
  fun i => if (i <? 3)%nat then 0 else 7.

(** Amounts as Python [int]s. *)
Definition bank0 : State Z := Bank_init repeating_generator "Bankify".

Definition alice : Account Z := mkAccount 1000000000 "Alice" "Savings" 100.
Definition bob : Account Z := mkAccount 1000000007 "Bob" "Checking" 20.

Definition bank1 : State Z :=
  mkState [alice] "Bankify" [(1000000000, 0%nat)] repeating_generator 1
    [MsgAccountCreated "Alice" 1000000000].

Definition bank2 : State Z :=
  mkState [alice; bob] "Bankify" [(1000000000, 0%nat); (1000000007, 1%nat)]
    repeating_generator 4
    [MsgAccountCreated "Alice" 1000000000; MsgAccountCreated "Bob" 1000000007].

(** Amounts as Python [float]s. *)
Definition fbank0 : State float64 := Bank_init (fun _ => 0) "Bankify".

Definition falice : Account float64 :=
  mkAccount 1000000000 "Alice" "Savings" (float_of_Z 100).

(** Doubles whose neighbours are two apart, and the unit. *)
Definition two53 : float64 := float_of_Z (2 ^ 53).
Definition two54 : float64 := float_of_Z (2 ^ 54).
Definition one : float64 := float_of_Z 1.

(** The accounts that [create_account("Alice", "Savings", 2.0**53)] and
    [create_account("Alice", "Savings", 2.0**54)] open in a new bank. *)
Definition rich : Account float64 :=
  mkAccount 1000000000 "Alice" "Savings" two53.
Definition richer : Account float64 :=
  mkAccount 1000000000 "Alice" "Savings" two54.

Definition fbob : Account float64 :=
  mkAccount 1000000007 "Bob" "Checking" (float_of_Z 20).

(** Float amounts, two accounts. *)
Definition fbank2 : State float64 :=
  mkState [falice; fbob] "Bankify" [(1000000000, 0%nat); (1000000007, 1%nat)]
    repeating_generator 4
    [MsgAccountCreated "Alice" 1000000000; MsgAccountCreated "Bob" 1000000007].

(** §8 of the specification, as calls. *)
Definition alice_scenario : list (Op float64) :=
  [OpCreate "Alice" "Savings" (float_of_Z 100);
   OpDeposit 0%nat (float_of_Z 50);
   OpWithdraw 0%nat (float_of_Z 200);
   OpWithdraw 0%nat (float_of_Z 150);
   OpClose 1000000000;
   OpFind 1000000000].

(** An infinite deposit, taken out again. *)
Definition infinity_scenario : list (Op float64) :=
  [OpCreate "Alice" "Savings" inf; OpWithdraw 0%nat inf].

(** ** The windows of [gui_main.py]

    The pages call the bank with what the user typed. [int(...)] and
    [float(...)] on the text of an entry are Python's own and are taken as
    given: [None] stands for their [ValueError]. Amounts are always floats
    here. A message is kept as the pieces of its f-string; the widgets are
    the text of each entry, the page on top, the text area of the listing,
    and the message boxes shown so far. *)

(** ["\n"] *)
Definition nl : string := String (Ascii.ascii_of_nat 10) EmptyString.

Inductive Piece : Type :=
| Lit (text : string)      (* literal text, or a string filled in *)
| Num (n : Z)              (* an integer filled in *)
| Money (x : float64).     (* a float filled in with [:.2f] *)

Inductive Dialog : Type :=
| showerror (title : string) (message : list Piece)
| showinfo (title : string) (message : list Piece)
| askyesno (title : string) (message : list Piece) (answer : bool).

Inductive Page : Type :=
| StartPage | CreateAccountPage | DepositPage | WithdrawPage
| BalancePage | DetailsPage | AllAccountsPage | CloseAccountPage.

Inductive Entry : Type :=
| HoldersName | AccountType | InitialDeposit
| acc_num_entry (page : Page)
| amount_entry (page : Page).

#[export] Instance Page_eq_dec : EqDecision Page.
Proof. solve_decision. Defined.

#[export] Instance Entry_eq_dec : EqDecision Entry.
Proof. solve_decision. Defined.

Record Gui : Type := mkGui {
  bank : State float64;
  entries : Entry -> string;
  raised : Page;
  text_area : list Piece;
  dialogs : list Dialog;
}.

Definition set_bank (b : State float64) (g : Gui) : Gui :=
  mkGui b (entries g) (raised g) (text_area g) (dialogs g).

Definition messagebox (d : Dialog) (g : Gui) : Gui :=
  mkGui (bank g) (entries g) (raised g) (text_area g) (dialogs g ++ [d]).

(** [entry.delete(0, 'end')] *)
Definition delete (e : Entry) (g : Gui) : Gui :=
  mkGui (bank g) (fun e' => if decide (e' = e) then EmptyString else entries g e')
    (raised g) (text_area g) (dialogs g).

(** The user edits an entry. *)
Definition type_text (e : Entry) (text : string) (g : Gui) : Gui :=
  mkGui (bank g) (fun e' => if decide (e' = e) then text else entries g e')
    (raised g) (text_area g) (dialogs g).

(** [not text] *)
Definition is_empty (text : string) : bool :=
  match text with EmptyString => true | _ => false end.

(** [Account.__str__] *)
Definition __str__ (self : Account float64) : list Piece :=
  [Lit nl; Lit "Account Number: "; Num (account_number self);
   Lit nl; Lit "Holder Name: "; Lit (name self);
   Lit nl; Lit "Account Type: "; Lit (account_type self);
   Lit nl; Lit "Balance: $"; Money (balance self)].

(** What [AllAccountsPage.on_show] inserts for one account. *)
Definition account_lines (account : Account float64) : list Piece :=
  [Lit "Account Number: "; Num (account_number account); Lit nl;
   Lit "Holder Name: "; Lit (name account); Lit nl;
   Lit "Account Type: "; Lit (account_type account); Lit nl;
   Lit "Balance: $"; Money (balance account); Lit nl;
   Lit "--------------------------------------"; Lit nl].

Definition item_lines (b : State float64) (item : Z * ref) : list Piece :=
  match heap b !! snd item with
  | Some account => account_lines account
  | None => []
  end.

Definition on_show (g : Gui) : Gui :=
  let all_accounts := accounts (bank g) in
  mkGui (bank g) (entries g) (raised g)
    (match all_accounts with
     | [] => [Lit "No accounts in the bank."]
     | _ => concat (map (item_lines (bank g)) all_accounts)
     end)
    (dialogs g).

(** Only [AllAccountsPage] has an [on_show]. *)
Definition show_frame (page_name : Page) (g : Gui) : Gui :=
  let g' := mkGui (bank g) (entries g) page_name (text_area g) (dialogs g) in
  match page_name with
  | AllAccountsPage => on_show g'
  | _ => g'
  end.

(** [BankApp()] *)
Definition BankApp_init (rnd : nat -> Z) : Gui :=
  show_frame StartPage (mkGui (Bank_init rnd "Bankify") (fun _ => EmptyString) StartPage [] []).

Definition account_not_found : Dialog := showerror "Error" [Lit "Account not found."].

Section Handlers.

(** [int(text)] and [float(text)] *)
Variable py_int : string -> option Z.
Variable py_float : string -> option float64.

(** A handler returns [None] when the call into the bank does not return
    (within [fuel] rounds of the generator), or for a reference to no
    object. *)
Definition on_create (fuel : nat) (g : Gui) : option Gui :=
  let holder := entries g HoldersName in
  let acc_type := entries g AccountType in
  match py_float (entries g InitialDeposit) with
  | None =>
      Some (messagebox
              (showerror "Error" [Lit "Invalid input for deposit. Please enter a number."]) g)
  | Some deposit_amount =>
      if is_empty holder || is_empty acc_type then
        Some (messagebox
                (showerror "Error" [Lit "Name and Account Type cannot be empty."]) g)
      else
        match create_account fuel holder acc_type deposit_amount (bank g) with
        | None => None
        | Some (Some new_account, b) =>
            match heap b !! new_account with
            | None => None
            | Some account =>
                let g1 := messagebox
                            (showinfo "Success"
                               [Lit "Account created for "; Lit holder; Lit "!"; Lit nl;
                                Lit "Account Number: "; Num (account_number account)])
                            (set_bank b g) in
                Some (show_frame StartPage
                        (delete InitialDeposit (delete AccountType (delete HoldersName g1))))
            end
        | Some (None, b) =>
            Some (messagebox
                    (showerror "Error" [Lit "Initial deposit must be $0 or more."])
                    (set_bank b g))
        end
  end.

Definition invalid_numbers : Dialog :=
  showerror "Error" [Lit "Invalid input. Please enter numbers."].

Definition invalid_account_number : Dialog :=
  showerror "Error" [Lit "Invalid account number. Please enter a number."].

Definition on_deposit (g : Gui) : option Gui :=
  match py_int (entries g (acc_num_entry DepositPage)) with
  | None => Some (messagebox invalid_numbers g)
  | Some acc_num =>
      match py_float (entries g (amount_entry DepositPage)) with
      | None => Some (messagebox invalid_numbers g)
      | Some amount =>
          match find_account acc_num (bank g) with
          | None => Some (messagebox account_not_found g)
          | Some account =>
              match call (fun self => deposit self amount) account (bank g) with
              | None => None
              | Some (true, b) =>
                  match heap b !! account with
                  | None => None
                  | Some self =>
                      let g1 := messagebox
                                  (showinfo "Success"
                                     [Lit "Deposited $"; Money amount; Lit "."; Lit nl;
                                      Lit "New Balance: $"; Money (get_balance self)])
                                  (set_bank b g) in
                      Some (show_frame StartPage
                              (delete (amount_entry DepositPage)
                                 (delete (acc_num_entry DepositPage) g1)))
                  end
              | Some (false, b) =>
                  Some (messagebox
                          (showerror "Error" [Lit "Invalid deposit amount. Must be positive."])
                          (set_bank b g))
              end
          end
      end
  end.

Definition on_withdraw (g : Gui) : option Gui :=
  match py_int (entries g (acc_num_entry WithdrawPage)) with
  | None => Some (messagebox invalid_numbers g)
  | Some acc_num =>
      match py_float (entries g (amount_entry WithdrawPage)) with
      | None => Some (messagebox invalid_numbers g)
      | Some amount =>
          match find_account acc_num (bank g) with
          | None => Some (messagebox account_not_found g)
          | Some account =>
              match call (fun self => withdraw self amount) account (bank g) with
              | None => None
              | Some (true, b) =>
                  match heap b !! account with
                  | None => None
                  | Some self =>
                      let g1 := messagebox
                                  (showinfo "Success"
                                     [Lit "Withdrew $"; Money amount; Lit "."; Lit nl;
                                      Lit "New Balance: $"; Money (get_balance self)])
                                  (set_bank b g) in
                      Some (show_frame StartPage
                              (delete (amount_entry WithdrawPage)
                                 (delete (acc_num_entry WithdrawPage) g1)))
                  end
              | Some (false, b) =>
                  if leb amount zero then
                    Some (messagebox
                            (showerror "Error"
                               [Lit "Invalid withdrawal amount. Must be positive."])
                            (set_bank b g))
                  else
                    Some (messagebox (showerror "Error" [Lit "Insufficient funds."])
                            (set_bank b g))
              end
          end
      end
  end.

Definition on_check (g : Gui) : option Gui :=
  match py_int (entries g (acc_num_entry BalancePage)) with
  | None => Some (messagebox invalid_account_number g)
  | Some acc_num =>
      match find_account acc_num (bank g) with
      | Some account =>
          match heap (bank g) !! account with
          | None => None
          | Some self =>
              Some (delete (acc_num_entry BalancePage)
                      (messagebox
                         (showinfo "Balance" [Lit "Current Balance: $"; Money (get_balance self)])
                         g))
          end
      | None => Some (messagebox account_not_found g)
      end
  end.

Definition on_details (g : Gui) : option Gui :=
  match py_int (entries g (acc_num_entry DetailsPage)) with
  | None => Some (messagebox invalid_account_number g)
  | Some acc_num =>
      match find_account acc_num (bank g) with
      | Some account =>
          match heap (bank g) !! account with
          | None => None
          | Some self =>
              Some (delete (acc_num_entry DetailsPage)
                      (messagebox (showinfo "Account Details" (__str__ self)) g))
          end
      | None => Some (messagebox account_not_found g)
      end
  end.

(** [answer] is what the user says to the confirmation, if it is shown. *)
Definition on_close (answer : bool) (g : Gui) : option Gui :=
  match py_int (entries g (acc_num_entry CloseAccountPage)) with
  | None => Some (messagebox invalid_account_number g)
  | Some acc_num =>
      match find_account acc_num (bank g) with
      | None => Some (messagebox account_not_found g)
      | Some account =>
          match heap (bank g) !! account with
          | None => None
          | Some self =>
              let g1 := messagebox
                          (askyesno "Confirm"
                             [Lit "Are you sure you want to close account:"; Lit nl;
                              Num (account_number self); Lit " - "; Lit (name self); Lit "?"]
                             answer) g in
              if answer then
                let '(closed, b) := close_account acc_num (bank g1) in
                if closed then
                  Some (show_frame StartPage
                          (delete (acc_num_entry CloseAccountPage)
                             (messagebox
                                (showinfo "Success"
                                   [Lit "Account "; Num acc_num; Lit " has been closed."])
                                (set_bank b g1))))
                else
                  Some (messagebox account_not_found (set_bank b g1))
              else Some g1
          end
      end
  end.

(** What the user can do. *)
Inductive Event : Type :=
| Edit (e : Entry) (text : string)
| Open (p : Page)              (* a menu button, or "Back to Menu" *)
| ClickCreate
| ClickDeposit
| ClickWithdraw
| ClickCheck
| ClickDetails
| ClickClose (answer : bool).

Definition handle (fuel : nat) (ev : Event) (g : Gui) : option Gui :=
  match ev with
  | Edit e text => Some (type_text e text g)
  | Open p => Some (show_frame p g)
  | ClickCreate => on_create fuel g
  | ClickDeposit => on_deposit g
  | ClickWithdraw => on_withdraw g
  | ClickCheck => on_check g
  | ClickDetails => on_details g
  | ClickClose answer => on_close answer g
  end.

(** The states of the application: it starts, then the user acts. *)
Inductive gui_reachable : Gui -> Prop :=
| gui_start rnd : gui_reachable (BankApp_init rnd)
| gui_event g ev fuel g' :
    gui_reachable g -> handle fuel ev g = Some g' -> gui_reachable g'.

(** No account has an empty holder or an empty type. *)
Definition holders_named (b : State float64) : Prop :=
  forall r acc, heap b !! r = Some acc ->
    is_empty (name acc) = false /\ is_empty (account_type acc) = false.

(** A handler that only shows an error box. *)
Definition refuses (h : Gui -> option Gui) (g : Gui) : Prop :=
  exists title message, h g = Some (messagebox (showerror title message) g).

(** The text of an entry is not the number of an account of the bank. *)
Definition no_such_account (e : Entry) (g : Gui) : Prop :=
  match py_int (entries g e) with
  | None => True
  | Some acc_num => find_account acc_num (bank g) = None
  end.

Fixpoint handle_all (fuel : nat) (evs : list Event) (g : Gui) : option Gui :=
  match evs with
  | [] => Some g
  | ev :: evs' =>
      match handle fuel ev g with
      | Some g' => handle_all fuel evs' g'
      | None => None
      end
  end.

End Handlers.

(** ** A concrete session *)

(** Stand-ins for [int] and [float] on the few texts that are typed. *)
Definition demo_int (text : string) : option Z :=
  if String.eqb text "1000000000" then Some 1000000000
  else if String.eqb text "42" then Some 42
  else None.

Definition demo_float (text : string) : option float64 :=
  if String.eqb text "100" then Some (float_of_Z 100)
  else if String.eqb text "50" then Some (float_of_Z 50)
  else if String.eqb text "500" then Some (float_of_Z 500)
  else if String.eqb text "-1" then Some (float_of_Z (-1))
  else if String.eqb text "nan" then Some nan
  else None.

Definition fbank1 : State float64 :=
  mkState [falice] "Bankify" [(1000000000, 0%nat)] (fun _ => 0) 1
    [MsgAccountCreated "Alice" 1000000000].

(** Alice's account is open and the user has typed its number everywhere,
    and [amount] as the amount. *)
Definition session (amount : string) : Gui :=
  mkGui fbank1
    (fun e => match e with
              | acc_num_entry _ => "1000000000"
              | amount_entry _ => amount
              | _ => EmptyString
              end)
    StartPage [] [].

(** The user has typed a number that no account has. *)
Definition stranger_session : Gui :=
  mkGui fbank1
    (fun e => match e with
              | acc_num_entry _ => "42"
              | amount_entry _ => "50"
              | _ => EmptyString
              end)
    StartPage [] [].

(** The form of the creation page, filled in for Bob. *)
Definition creation_session (deposit_text : string) : Gui :=
  mkGui fbank1
    (fun e => match e with
              | HoldersName => "Bob"
              | AccountType => "Checking"
              | InitialDeposit => deposit_text
              | _ => EmptyString
              end)
    CreateAccountPage [] [].

(** The same form over a bank whose generator repeats Alice's number twice
    before it gives a new one. *)
Definition repeating_form : Gui :=
  mkGui
    (mkState [falice] "Bankify" [(1000000000, 0%nat)] repeating_generator 1
       [MsgAccountCreated "Alice" 1000000000])
    (entries (creation_session "50")) CreateAccountPage [] [].

(** The user opens Alice's account through the window. *)
Definition opening : list Event :=
  [Open CreateAccountPage; Edit HoldersName "Alice"; Edit AccountType "Savings";
   Edit InitialDeposit "100"; ClickCreate].

(** ** More state predicates *)

(** Every key of the mapping is a ten-digit number. *)
Definition keys_in_range {A} (s : State A) : Prop :=
  forall n r, dict_get n (accounts s) = Some r ->
    lowest_number <= n <= highest_number.

(** The accounts of the mapping, in the order of [accounts.values()]. *)
Definition listed {A} (s : State A) (accs : list (Account A)) : Prop :=
  Forall2 (fun e acc => heap s !! snd e = Some acc /\ account_number acc = fst e)
    (accounts s) accs.

(** * Properties *)

(** ** The two number types *)

#[export] Instance int_order : PyNumOrder Z.
Proof.
  split; simpl; intros.
  - apply Z.leb_le. apply Z.leb_le in H, H0. lia.
  - apply Z.ltb_ge. apply Z.leb_le in H. lia.
  - apply Z.leb_gt. apply Z.ltb_lt in H. lia.
Qed.

#[export] Instance int_exact : PyNumExact Z.
Proof.
  split; [exact int_order | simpl; intros ..].
  - apply Z.leb_le. apply Z.ltb_ge in H. lia.
  - apply Z.leb_le. apply Z.leb_le in H. apply Z.ltb_lt in H0. lia.
  - apply Z.leb_le. apply Z.leb_le in H. lia.
Qed.

Lemma cmp_mag_antisym m1 e1 m2 e2 : cmp_mag m2 e2 m1 e1 = CompOpp (cmp_mag m1 e1 m2 e2).
Proof.
  unfold cmp_mag. rewrite (Z.compare_antisym e1 e2).
  change (Pos.compare_cont Eq m2 m1) with (Pos.compare m2 m1).
  change (Pos.compare_cont Eq m1 m2) with (Pos.compare m1 m2).
  rewrite (Pos.compare_antisym m1 m2).
  destruct (e1 ?= e2); reflexivity.
Qed.

Lemma cmp_mag_le_trans m1 e1 m2 e2 m3 e3 :
  cmp_mag m1 e1 m2 e2 <> Gt -> cmp_mag m2 e2 m3 e3 <> Gt -> cmp_mag m1 e1 m3 e3 <> Gt.
Proof.
  unfold cmp_mag.
  change (Pos.compare_cont Eq m1 m2) with (Pos.compare m1 m2).
  change (Pos.compare_cont Eq m2 m3) with (Pos.compare m2 m3).
  change (Pos.compare_cont Eq m1 m3) with (Pos.compare m1 m3).
  destruct (Z.compare_spec e1 e2), (Z.compare_spec e2 e3), (Z.compare_spec e1 e3);
    try lia; try congruence;
    destruct (Pos.compare_spec m1 m2), (Pos.compare_spec m2 m3), (Pos.compare_spec m1 m3);
    try lia; congruence.
Qed.

Lemma SFcompare_finite s1 m1 e1 s2 m2 e2 :
  SFcompare (S754_finite s1 m1 e1) (S754_finite s2 m2 e2) =
  Some match s1, s2 with
       | true, false => Lt
       | false, true => Gt
       | false, false => cmp_mag m1 e1 m2 e2
       | true, true => CompOpp (cmp_mag m1 e1 m2 e2)
       end.
Proof. destruct s1, s2; simpl; unfold cmp_mag; try reflexivity; destruct (e1 ?= e2); reflexivity. Qed.

Lemma SFcompare_antisym x y :
  SFcompare y x = option_map CompOpp (SFcompare x y).
Proof.
  destruct x as [sx|sx| |sx mx ex], y as [sy|sy| |sy my ey];
    try (destruct sx); try (destruct sy); try reflexivity;
    rewrite !SFcompare_finite; simpl; rewrite cmp_mag_antisym; reflexivity.
Qed.

#[export] Instance float_order : PyNumOrder float64.
Proof.
  split; simpl; unfold SFleb, SFltb.
  - intros x y z.
    destruct x as [sx|sx| |sx mx ex], y as [sy|sy| |sy my ey], z as [sz|sz| |sz mz ez];
      try (destruct sx); try (destruct sy); try (destruct sz);
      try reflexivity; try (simpl; discriminate); try (simpl; reflexivity);
      rewrite !SFcompare_finite;
      pose proof (cmp_mag_le_trans mx ex my ey mz ez) as T;
      pose proof (cmp_mag_le_trans mz ez my ey mx ex) as T';
      destruct (cmp_mag mx ex my ey) eqn:E1, (cmp_mag my ey mz ez) eqn:E2,
        (cmp_mag mx ex mz ez) eqn:E3; simpl; try reflexivity; try discriminate;
      intros _ _; try (exfalso; apply T; congruence);
      rewrite (cmp_mag_antisym my ey mz ez), (cmp_mag_antisym mx ex my ey),
        (cmp_mag_antisym mx ex mz ez), E1, E2, E3 in T'; simpl in T';
      exfalso; apply T'; congruence.
  - intros x y. rewrite (SFcompare_antisym x y).
    destruct (SFcompare x y) as [[]|]; simpl; congruence.
  - intros x y. rewrite (SFcompare_antisym x y).
    destruct (SFcompare x y) as [[]|]; simpl; congruence.
Qed.

(** ** Floats in order *)

Section FloatOrder.

Lemma SFcompare_defined (x y : float64) :
  x <> nan -> y <> nan -> exists c, SFcompare x y = Some c.
Proof.
  unfold nan. intros Hx Hy.
  destruct x as [sx|sx| |sx mx ex], y as [sy|sy| |sy my ey];
    try contradiction; simpl; eauto.
Qed.

Lemma float_not_leb_ltb (x y : float64) :
  x <> nan -> y <> nan -> leb x y = false -> ltb y x = true.
Proof.
  intros Hx Hy. simpl. unfold SFleb, SFltb. rewrite (SFcompare_antisym x y).
  destruct (SFcompare_defined x y Hx Hy) as [c ->]. destruct c; simpl; congruence.
Qed.

Lemma float_leb_not_nan (x y : float64) : leb x y = true -> x <> nan /\ y <> nan.
Proof.
  simpl. unfold SFleb, nan.
  destruct x as [sx|sx| |sx mx ex], y as [sy|sy| |sy my ey]; simpl;
    try discriminate; intros _; split; discriminate.
Qed.

Lemma float_ltb_not_nan (x y : float64) : ltb x y = true -> x <> nan /\ y <> nan.
Proof.
  simpl. unfold SFltb, nan.
  destruct x as [sx|sx| |sx mx ex], y as [sy|sy| |sy my ey]; simpl;
    try discriminate; intros _; split; discriminate.
Qed.

(** Nothing that is at most zero is above a balance that is not negative. *)
Lemma float_not_negative_not_below (a b : float64) :
  leb a zero = true -> ltb b zero = false -> ltb b a = false.
Proof.
  intros Ha Hb. destruct (ltb b a) eqn:Hba; [|reflexivity]. exfalso.
  destruct (float_ltb_not_nan _ _ Hba) as [Hbn _].
  assert (H0b : leb zero b = true).
  { destruct (leb zero b) eqn:H0b; [reflexivity|].
    rewrite (float_not_leb_ltb zero b) in Hb; [discriminate|discriminate|exact Hbn|exact H0b]. }
  pose proof (leb_not_ltb _ _ (leb_trans _ _ _ Ha H0b)) as Hcontra.
  congruence.
Qed.

End FloatOrder.

(** ** The dictionary *)

Section Dict.

Context {V : Type}.
Implicit Types (d : dict V) (k : Z) (v : V).

Lemma dict_get_set k k' v d :
  dict_get k (dict_set k' v d) = if Z.eqb k k' then Some v else dict_get k d.
Proof.
  induction d as [|[k0 v0] d IH]; simpl.
  - destruct (Z.eqb_spec k k'); reflexivity.
  - destruct (Z.eqb_spec k' k0) as [->|Hne]; simpl.
    + destruct (Z.eqb_spec k k0); reflexivity.
    + rewrite IH. destruct (Z.eqb_spec k k0) as [->|]; [|reflexivity].
      destruct (Z.eqb_spec k0 k'); congruence.
Qed.

Lemma dict_get_del k k' d :
  dict_get k (dict_del k' d) = if Z.eqb k k' then None else dict_get k d.
Proof.
  induction d as [|[k0 v0] d IH]; simpl.
  - destruct (Z.eqb k k'); reflexivity.
  - destruct (Z.eqb_spec k' k0) as [->|Hne]; simpl.
    + rewrite IH. destruct (Z.eqb_spec k k0); reflexivity.
    + rewrite IH. destruct (Z.eqb_spec k k0) as [->|]; [|reflexivity].
      destruct (Z.eqb_spec k0 k'); congruence.
Qed.


Lemma dict_del_absent k d :
  dict_contains k d = false -> dict_del k d = d.
Proof.
  unfold dict_contains. induction d as [|[k0 v0] d IH]; simpl; [reflexivity|].
  destruct (Z.eqb k k0); [discriminate|]. intros Hk. rewrite IH by exact Hk. reflexivity.
Qed.

Lemma dict_contains_get k d :
  dict_contains k d = true <-> exists v, dict_get k d = Some v.
Proof.
  unfold dict_contains. destruct (dict_get k d) as [v|].
  - split; [eauto | reflexivity].
  - split; [discriminate | intros [v Hv]; discriminate].
Qed.

Lemma dict_absent_get k d :
  dict_contains k d = false <-> dict_get k d = None.
Proof.
  unfold dict_contains. destruct (dict_get k d); split; congruence.
Qed.

Lemma dict_del_shorter k d :
  dict_contains k d = true -> (length (dict_del k d) < length d)%nat.
Proof.
  unfold dict_contains. induction d as [|[k0 v0] d IH]; simpl; [discriminate|].
  destruct (Z.eqb k k0); simpl.
  - intros _. clear IH. induction d as [|[k1 v1] d IH]; simpl; [lia|].
    destruct (Z.eqb k k1); simpl; lia.
  - intros Hk. specialize (IH Hk). lia.
Qed.

Lemma dict_keys_set_elem x k v d :
  x ∈ dict_keys (dict_set k v d) -> x = k \/ x ∈ dict_keys d.
Proof.
  induction d as [|[k0 v0] d IH]; simpl.
  - intros ->%list_elem_of_singleton. left. reflexivity.
  - destruct (Z.eqb_spec k k0) as [->|Hne]; simpl.
    + intros Hx. right. exact Hx.
    + intros [->|Hx]%elem_of_cons.
      * right. apply elem_of_cons. left. reflexivity.
      * destruct (IH Hx) as [->|Hd]; [left; reflexivity|].
        right. apply elem_of_cons. right. exact Hd.
Qed.

Lemma dict_keys_del_elem x k d :
  x ∈ dict_keys (dict_del k d) -> x ∈ dict_keys d.
Proof.
  induction d as [|[k0 v0] d IH]; simpl; [trivial|].
  destruct (Z.eqb k k0); simpl.
  - intros Hx. apply elem_of_cons. right. exact (IH Hx).
  - intros [->|Hx]%elem_of_cons; apply elem_of_cons; [left|right]; auto.
Qed.

Lemma dict_set_unique k v d :
  NoDup (dict_keys d) -> NoDup (dict_keys (dict_set k v d)).
Proof.
  induction d as [|[k0 v0] d IH]; simpl.
  - intros _. apply NoDup_singleton.
  - intros [Hk0 Hd]%NoDup_cons. destruct (Z.eqb_spec k k0) as [->|Hne]; simpl.
    + apply NoDup_cons. split; assumption.
    + apply NoDup_cons. split; [|exact (IH Hd)].
      intros [->|Hin]%dict_keys_set_elem; [apply Hne; reflexivity | exact (Hk0 Hin)].
Qed.

Lemma dict_del_unique k d :
  NoDup (dict_keys d) -> NoDup (dict_keys (dict_del k d)).
Proof.
  induction d as [|[k0 v0] d IH]; simpl; [trivial|].
  intros [Hk0 Hd]%NoDup_cons. destruct (Z.eqb k k0); simpl; [exact (IH Hd)|].
  apply NoDup_cons. split; [|exact (IH Hd)].
  intros Hin%dict_keys_del_elem. exact (Hk0 Hin).
Qed.

End Dict.

Section AccountProperties.

Context {A : Type} `{PyNum A}.
Implicit Types (self acc : Account A) (amount a : A).

(** ** Withdrawals *)

Lemma withdraw_ok self a :
  ltb zero a = true -> leb a (balance self) = true ->
  withdraw self a =
    mkOutcome (set_balance self (sub (balance self) a)) true
      [MsgWithdrew a (sub (balance self) a)].
Proof. unfold withdraw. intros -> ->. reflexivity. Qed.

Lemma withdraw_insufficient `{!PyNumOrder A} self a :
  gtb a (balance self) = true ->
  withdraw self a = mkOutcome self false [MsgInsufficientFunds].
Proof.
  unfold withdraw, gtb. intros Hgt.
  rewrite (ltb_not_leb _ _ Hgt), Hgt, andb_false_r. reflexivity.
Qed.

Lemma withdraw_invalid `{!PyNumOrder A} self a :
  leb zero (balance self) = true -> leb a zero = true ->
  withdraw self a = mkOutcome self false [MsgInvalidWithdrawal].
Proof.
  unfold withdraw, gtb. intros Hb Ha.
  rewrite (leb_not_ltb _ _ Ha), (leb_not_ltb _ _ (leb_trans _ _ _ Ha Hb)).
  reflexivity.
Qed.

(** C9. On an account whose balance is not negative, a withdrawal of an
    invalid amount and one of too large an amount both return [False]: the
    returned value is the same, and only the printed message tells the two
    failures apart. *)
Theorem withdraw_failures_same_result `{!PyNumOrder A} self a1 a2 :
  leb zero (balance self) = true ->
  leb a1 zero = true ->
  gtb a2 (balance self) = true -> gtb a2 zero = true ->
  returned (withdraw self a1) = false /\
  returned (withdraw self a2) = false /\
  returned (withdraw self a1) = returned (withdraw self a2) /\
  printed (withdraw self a1) = [MsgInvalidWithdrawal] /\
  printed (withdraw self a2) = [MsgInsufficientFunds].
Proof.
  intros Hb H1 H2 _.
  rewrite (withdraw_invalid self a1 Hb H1), (withdraw_insufficient self a2 H2).
  simpl. auto.
Qed.

End AccountProperties.

(** ** Deposits and withdrawals of floats *)

Section FloatAccounts.

Implicit Types (self : Account float64) (a : float64).

(** C3, amended. [deposit(a)] with [a > 0], however large, returns [True]
    and makes the balance the double [balance + a] of IEEE 754 addition,
    the exact sum rounded to the nearest double; with [a <= 0] it returns
    [False] and leaves the account as it was. *)
Theorem deposit_spec self a :
  (gtb a zero = true ->
     returned (deposit self a) = true /\
     balance (self_after (deposit self a)) = SFadd prec64 emax64 (balance self) a /\
     same_identity self (self_after (deposit self a)) /\
     printed (deposit self a) =
       [MsgDeposited a (SFadd prec64 emax64 (balance self) a)]) /\
  (leb a zero = true ->
     self_after (deposit self a) = self /\
     returned (deposit self a) = false /\
     printed (deposit self a) = [MsgInvalidDeposit]).
Proof.
  unfold deposit. split.
  - intros ->. simpl. repeat split.
  - intros Hle. unfold gtb. rewrite (leb_not_ltb _ _ Hle). simpl. auto.
Qed.

(** C2, amended. [0 < a <= b] is accepted: [True], and the balance [b]
    becomes the double [b - a] of IEEE 754 subtraction, the exact
    difference rounded to the nearest double. [a > b] reports insufficient
    funds. [a <= 0] is refused, as an invalid amount whenever [a > b] is
    false, which it is on every balance that is not negative. The refusals
    leave the account as it was. *)
Theorem withdraw_three_way self a :
  (ltb zero a = true -> leb a (balance self) = true ->
     returned (withdraw self a) = true /\
     balance (self_after (withdraw self a)) = SFsub prec64 emax64 (balance self) a /\
     same_identity self (self_after (withdraw self a)) /\
     printed (withdraw self a) =
       [MsgWithdrew a (SFsub prec64 emax64 (balance self) a)]) /\
  (gtb a (balance self) = true -> gtb a zero = true ->
     self_after (withdraw self a) = self /\
     returned (withdraw self a) = false /\
     printed (withdraw self a) = [MsgInsufficientFunds]) /\
  (leb a zero = true ->
     self_after (withdraw self a) = self /\
     returned (withdraw self a) = false /\
     (gtb a (balance self) = false ->
        printed (withdraw self a) = [MsgInvalidWithdrawal]) /\
     (ltb (balance self) zero = false ->
        printed (withdraw self a) = [MsgInvalidWithdrawal])).
Proof.
  split; [|split].
  - intros Ha Hab. rewrite withdraw_ok by assumption. simpl. repeat split.
  - intros Hab _. rewrite withdraw_insufficient by assumption. auto.
  - intros Ha.
    assert (Hshape : forall c, gtb a (balance self) = c ->
              withdraw self a =
                mkOutcome self false
                  [if c then MsgInsufficientFunds else MsgInvalidWithdrawal]).
    { intros c Hc. unfold withdraw. rewrite (leb_not_ltb _ _ Ha), Hc.
      destruct c; reflexivity. }
    split; [|split; [|split]].
    + rewrite (Hshape _ eq_refl). reflexivity.
    + rewrite (Hshape _ eq_refl). reflexivity.
    + intros Hc. rewrite (Hshape _ Hc). reflexivity.
    + intros Hb. rewrite (Hshape false); [reflexivity|].
      unfold gtb. apply float_not_negative_not_below; assumption.
Qed.

End FloatAccounts.

Section LedgerProperties.

Context {A : Type} `{PyNum A}.
Implicit Types (self acc : Account A) (amount a : A) (s : State A) (op : Op A).
Implicit Types (r : ref) (n number : Z) (fuel k : nat).

(** ** Account numbers *)

Lemma randint_drawn s :
  randint lowest_number highest_number s = (drawn s 0, advance 1 s).
Proof.
  unfold randint, drawn, advance, lowest_number, highest_number.
  rewrite Nat.add_0_r. reflexivity.
Qed.

Lemma drawn_advance s j k : drawn (advance j s) k = drawn s (j + k).
Proof. unfold drawn, advance. simpl. rewrite Nat.add_assoc, (Nat.add_comm j). reflexivity. Qed.

Lemma advance_advance s j k : advance j (advance k s) = advance (j + k) s.
Proof. unfold advance. simpl. rewrite Nat.add_assoc. reflexivity. Qed.

Lemma drawn_in_range s k : lowest_number <= drawn s k <= highest_number.
Proof.
  unfold drawn, lowest_number, highest_number.
  pose proof (Z.mod_pos_bound (entropy s (draws s + k)%nat) (9999999999 - 1000000000 + 1)).
  lia.
Qed.

Lemma generate_round fuel s :
  _generate_account_number (S fuel) s =
    if dict_contains (drawn s 0) (accounts s)
    then _generate_account_number fuel (advance 1 s)
    else Some (drawn s 0, advance 1 s).
Proof.
  cbn [_generate_account_number]. rewrite randint_drawn.
  change (accounts (advance 1 s)) with (accounts s).
  destruct (dict_contains (drawn s 0) (accounts s)); reflexivity.
Qed.

(** The loop returns the first free answer of the generator, after as many
    rounds as it takes to reach it. *)
Lemma generate_first_free k : forall s,
  dict_contains (drawn s k) (accounts s) = false ->
  exists j, (j <= k)%nat /\
    dict_contains (drawn s j) (accounts s) = false /\
    (forall i, (i < j)%nat -> dict_contains (drawn s i) (accounts s) = true) /\
    forall fuel, (j < fuel)%nat ->
      _generate_account_number fuel s = Some (drawn s j, advance (S j) s).
Proof.
  induction k as [|k IH]; intros s Hfree.
  - exists 0%nat. repeat split; [lia | exact Hfree | lia |].
    intros [|fuel] Hf; [lia|]. rewrite generate_round, Hfree. reflexivity.
  - destruct (dict_contains (drawn s 0) (accounts s)) eqn:H0.
    + destruct (IH (advance 1 s)) as (j & Hj & Hfj & Hocc & Hrun).
      { rewrite drawn_advance. exact Hfree. }
      exists (S j). repeat split; [lia | | |].
      * rewrite drawn_advance in Hfj. exact Hfj.
      * intros [|i] Hi; [exact H0|].
        specialize (Hocc i ltac:(lia)). rewrite drawn_advance in Hocc. exact Hocc.
      * intros [|fuel] Hf; [lia|]. rewrite generate_round, H0.
        rewrite (Hrun fuel) by lia.
        rewrite drawn_advance, advance_advance.
        replace (S j + 1)%nat with (S (S j)) by lia. reflexivity.
    + exists 0%nat. repeat split; [lia | exact H0 | lia |].
      intros [|fuel] Hf; [lia|]. rewrite generate_round, H0. reflexivity.
Qed.

(** Whatever the loop returns is a free number of the range, and only the
    generator has moved. *)
Lemma generate_sound fuel : forall s n s',
  _generate_account_number fuel s = Some (n, s') ->
  lowest_number <= n <= highest_number /\
  dict_contains n (accounts s) = false /\
  exists j, s' = advance (S j) s.
Proof.
  induction fuel as [|fuel IH]; intros s n s'; [discriminate|].
  rewrite generate_round.
  destruct (dict_contains (drawn s 0) (accounts s)) eqn:H0.
  - intros Hrun. apply IH in Hrun as (Hr & Hf & j & ->).
    repeat split; try apply Hr; [exact Hf|].
    exists (S j). rewrite advance_advance. f_equal. lia.
  - intros [= <- <-]. repeat split; try apply drawn_in_range; [exact H0|].
    exists 0%nat. reflexivity.
Qed.

(** C7. When the generator's answers reach a number that is not a key of
    the mapping, [_generate_account_number] returns: with enough rounds the
    loop ends, and its result is between 1,000,000,000 and 9,999,999,999
    and is not a key; the ledger is untouched. *)
Theorem generate_account_number_terminates s k :
  dict_contains (drawn s k) (accounts s) = false ->
  exists fuel0 n s',
    (forall fuel, (fuel0 <= fuel)%nat ->
       _generate_account_number fuel s = Some (n, s')) /\
    lowest_number <= n <= highest_number /\
    dict_contains n (accounts s) = false /\
    accounts s' = accounts s /\ heap s' = heap s.
Proof.
  intros Hfree.
  destruct (generate_first_free k s Hfree) as (j & _ & Hfj & _ & Hrun).
  exists (S j), (drawn s j), (advance (S j) s).
  split; [intros fuel Hf; apply Hrun; lia|].
  split; [apply drawn_in_range|]. auto.
Qed.

(** A ledger in which the whole range is taken keeps the loop running. *)
Lemma generate_exhausted s :
  (forall n, lowest_number <= n <= highest_number ->
     dict_contains n (accounts s) = true) ->
  forall fuel, _generate_account_number fuel s = None.
Proof.
  intros Hfull fuel.
  destruct (_generate_account_number fuel s) as [[n s']|] eqn:Hrun; [|reflexivity].
  apply generate_sound in Hrun as (Hr & Hf & _).
  rewrite (Hfull n Hr) in Hf. discriminate.
Qed.

(** ** Creating an account *)

Lemma create_account_accepts fuel holder type d s n s1 :
  ltb d zero = false ->
  _generate_account_number fuel s = Some (n, s1) ->
  create_account fuel holder type d s =
    Some (Some (length (heap s1)),
          print [MsgAccountCreated holder n]
            (set_accounts (dict_set n (length (heap s1)) (accounts s1))
               (set_heap (heap s1 ++ [mkAccount n holder type d]) s1))).
Proof. unfold create_account. intros -> ->. reflexivity. Qed.


(** C5. [create_account] with a negative deposit returns [None] at once:
    no account is made and the mapping, with its count, is as before. *)
Theorem create_account_rejects_negative fuel holder type d s :
  ltb d zero = true ->
  exists s',
    create_account fuel holder type d s = Some (None, s') /\
    accounts s' = accounts s /\
    length (accounts s') = length (accounts s) /\
    heap s' = heap s /\
    draws s' = draws s /\
    stdout s' = stdout s ++ [MsgNegativeInitialDeposit].
Proof.
  intros Hd. unfold create_account. rewrite Hd.
  eexists. split; [reflexivity|]. simpl. auto.
Qed.

(** ** Closing an account *)

(** C6. [close_account(n)] on a key of the mapping removes it and returns
    [True], after which [find_account(n)] finds nothing and every other
    number is found as before; on a number that is not a key it returns
    [False], reports that the account was not found, and leaves the mapping
    as it was. *)
Theorem close_account_spec s n :
  (forall r, find_account n s = Some r ->
     fst (close_account n s) = true /\
     find_account n (snd (close_account n s)) = None /\
     dict_contains n (accounts (snd (close_account n s))) = false /\
     (forall n', n' <> n ->
        find_account n' (snd (close_account n s)) = find_account n' s)) /\
  (find_account n s = None ->
     fst (close_account n s) = false /\
     accounts (snd (close_account n s)) = accounts s /\
     heap (snd (close_account n s)) = heap s /\
     stdout (snd (close_account n s)) = stdout s ++ [MsgAccountNotFound]).
Proof.
  unfold find_account, close_account, dict_contains. split.
  - intros r Hr. rewrite Hr. simpl. rewrite !dict_get_del, Z.eqb_refl.
    repeat split. intros n' Hn'. rewrite dict_get_del.
    destruct (Z.eqb_spec n' n); [contradiction | reflexivity].
  - intros Hr. rewrite Hr. simpl. auto.
Qed.

(** ** What one operation does to the heap and to the mapping *)

Lemma call_inv {R} (m : Account A -> Outcome A R) r s ret s' :
  call m r s = Some (ret, s') ->
  exists self, heap s !! r = Some self /\
    ret = returned (m self) /\
    heap s' = <[r := self_after (m self)]> (heap s) /\
    accounts s' = accounts s /\
    stdout s' = stdout s ++ printed (m self).
Proof.
  unfold call. destruct (heap s !! r) as [self|]; [|discriminate].
  intros [= <- <-]. exists self. simpl. auto.
Qed.

Lemma create_account_inv fuel holder type d s res s' :
  create_account fuel holder type d s = Some (res, s') ->
  (res = None /\ ltb d zero = true /\ heap s' = heap s /\ accounts s' = accounts s) \/
  (exists n, res = Some (length (heap s)) /\ ltb d zero = false /\
     lowest_number <= n <= highest_number /\
     dict_contains n (accounts s) = false /\
     heap s' = heap s ++ [mkAccount n holder type d] /\
     accounts s' = dict_set n (length (heap s)) (accounts s)).
Proof.
  unfold create_account. destruct (ltb d zero) eqn:Hd.
  - intros [= <- <-]. left. simpl. auto.
  - destruct (_generate_account_number fuel s) as [[n s1]|] eqn:Hgen; [|discriminate].
    apply generate_sound in Hgen as (Hr & Hf & j & ->).
    intros [= <- <-]. right. exists n. simpl. repeat split; auto; apply Hr.
Qed.

Lemma deposit_identity self a : same_identity self (self_after (deposit self a)).
Proof. unfold deposit. destruct (gtb a zero); repeat split. Qed.

Lemma withdraw_identity self a : same_identity self (self_after (withdraw self a)).
Proof.
  unfold withdraw.
  destruct (ltb zero a && leb a (balance self)); [repeat split|].
  destruct (gtb a (balance self)); repeat split.
Qed.

Lemma run_effect fuel op s s' : run fuel op s = Some s' -> effect s s'.
Proof.
  destruct op as [holder type d|r a|r a|r|n|n|]; simpl.
  - destruct (create_account fuel holder type d s) as [[res s1]|] eqn:Hc; [|discriminate].
    intros [= <-]. apply create_account_inv in Hc as [(_ & _ & Hh & Ha)|(n & _ & _ & _ & _ & Hh & Ha)].
    + apply effect_none; assumption.
    + eapply effect_create; [|exact Hh|exact Ha]. reflexivity.
  - destruct (call _ r s) as [[ret s1]|] eqn:Hc; [|discriminate].
    intros [= <-]. apply call_inv in Hc as (self & Hr & _ & Hh & Ha & _).
    eapply effect_update; [exact Hr|apply deposit_identity|exact Hh|exact Ha].
  - destruct (call _ r s) as [[ret s1]|] eqn:Hc; [|discriminate].
    intros [= <-]. apply call_inv in Hc as (self & Hr & _ & Hh & Ha & _).
    eapply effect_update; [exact Hr|apply withdraw_identity|exact Hh|exact Ha].
  - destruct (heap s !! r); [|discriminate]. intros [= <-]. apply effect_none; reflexivity.
  - intros [= <-]. apply effect_none; reflexivity.
  - intros [= <-]. unfold close_account.
    destruct (dict_contains n (accounts s)).
    + apply (effect_close _ _ n); reflexivity.
    + apply effect_none; reflexivity.
  - intros [= <-]. unfold list_all_accounts.
    destruct (accounts s); apply effect_none; reflexivity.
Qed.

(** ** Keys and account numbers *)

Lemma effect_keys_match s s' : effect s s' -> keys_match s -> keys_match s'.
Proof.
  intros [Hh Ha|r self self' Hr (Hnum & _) Hh Ha|n acc Hnum Hh Ha|n Hh Ha] Hkm n0 r0;
    rewrite Hh, Ha.
  - apply Hkm.
  - intros Hget. destruct (Hkm n0 r0 Hget) as (acc0 & Hr0 & Hn0).
    destruct (decide (r = r0)) as [<-|Hne].
    + exists self'. rewrite list_lookup_insert_eq by (eapply lookup_lt_Some; exact Hr).
      split; [reflexivity|]. congruence.
    + exists acc0. rewrite list_lookup_insert_ne by exact Hne. auto.
  - rewrite dict_get_set. destruct (Z.eqb_spec n0 n) as [->|_].
    + intros [= <-]. exists acc. split; [|exact Hnum].
      apply list_lookup_middle. reflexivity.
    + intros Hget. destruct (Hkm n0 r0 Hget) as (acc0 & Hr0 & Hn0).
      exists acc0. split; [|exact Hn0].
      rewrite lookup_app_l by (eapply lookup_lt_Some; exact Hr0). exact Hr0.
  - rewrite dict_get_del. destruct (Z.eqb n0 n); [discriminate|]. apply Hkm.
Qed.

Lemma keys_match_no_alias s : keys_match s -> no_alias s.
Proof.
  intros Hkm n1 n2 r H1 H2.
  destruct (Hkm n1 r H1) as (acc1 & Hr1 & <-).
  destruct (Hkm n2 r H2) as (acc2 & Hr2 & <-).
  congruence.
Qed.

Lemma reachable_keys_match s : reachable s -> keys_match s.
Proof.
  induction 1 as [rnd bname|s op fuel s' _ IH Hrun].
  - intros n r. simpl. discriminate.
  - eapply effect_keys_match; [eapply run_effect; exact Hrun | exact IH].
Qed.

Lemma effect_keys_unique s s' : effect s s' -> keys_unique s -> keys_unique s'.
Proof.
  unfold keys_unique.
  intros [_ Ha|r self self' _ _ _ Ha|n acc _ _ Ha|n _ Ha] Hu; rewrite Ha.
  - exact Hu.
  - exact Hu.
  - apply dict_set_unique. exact Hu.
  - apply dict_del_unique. exact Hu.
Qed.

(** The mapping of a reachable state has every key once. *)
Lemma reachable_keys_unique s : reachable s -> keys_unique s.
Proof.
  induction 1 as [rnd bname|s op fuel s' _ IH Hrun].
  - apply NoDup_nil_2.
  - eapply effect_keys_unique; [eapply run_effect; exact Hrun | exact IH].
Qed.

(** C8. In every state that the core operations reach, each key of the
    mapping is the number of the account it maps to; and each operation,
    [create_account], [close_account], [deposit], [withdraw] and
    [find_account] among them, keeps it so. *)
Theorem keys_are_account_numbers :
  (forall s, reachable s -> keys_match s) /\
  (forall s op fuel s', keys_match s -> run fuel op s = Some s' -> keys_match s').
Proof.
  split; [exact reachable_keys_match|].
  intros s op fuel s' Hkm Hrun.
  eapply effect_keys_match; [eapply run_effect; exact Hrun | exact Hkm].
Qed.

(** ** What a deposit or a withdrawal leaves alone *)

Lemma run_all_reachable fuel ops : forall s s',
  reachable s -> run_all fuel ops s = Some s' -> reachable s'.
Proof.
  induction ops as [|op ops IH]; intros s s' Hs; simpl.
  - intros [= <-]. exact Hs.
  - destruct (run fuel op s) as [s1|] eqn:Hrun; [|discriminate].
    apply IH. eapply reachable_step; [exact Hs | exact Hrun].
Qed.

Lemma call_frame (m : Account A -> Outcome A bool) r s ret s' :
  (forall self, same_identity self (self_after (m self))) ->
  keys_match s ->
  call m r s = Some (ret, s') ->
  accounts s' = accounts s /\
  (exists acc acc',
     heap s !! r = Some acc /\ heap s' !! r = Some acc' /\ same_identity acc acc') /\
  (forall r', r' <> r -> heap s' !! r' = heap s !! r') /\
  (forall n n', find_account n s = Some r -> n' <> n ->
     account_of s' n' = account_of s n').
Proof.
  intros Hid Hkm Hcall.
  apply call_inv in Hcall as (self & Hr & _ & Hh & Ha & _).
  split; [exact Ha|]. split; [|split].
  - exists self, (self_after (m self)). split; [exact Hr|]. split; [|apply Hid].
    rewrite Hh. apply list_lookup_insert_eq. eapply lookup_lt_Some. exact Hr.
  - intros r' Hne. rewrite Hh. apply list_lookup_insert_ne. congruence.
  - intros n n' Hn Hne. unfold account_of, find_account in *. rewrite Ha.
    destruct (dict_get n' (accounts s)) as [r'|] eqn:Hn'; [|reflexivity].
    rewrite Hh. apply list_lookup_insert_ne. intros <-.
    apply Hne. exact (keys_match_no_alias s Hkm n' n r Hn' Hn).
Qed.

(** C10. [deposit] and [withdraw], accepted or refused, keep the number,
    the holder and the type of the account they are called on; in a state
    that the core operations reach, they keep the mapping, every other
    object, and so the account found under every other number. *)
Theorem deposit_withdraw_frame :
  (forall self a,
     same_identity self (self_after (deposit self a)) /\
     same_identity self (self_after (withdraw self a))) /\
  (forall s op r a fuel s',
     op = OpDeposit r a \/ op = OpWithdraw r a ->
     reachable s ->
     run fuel op s = Some s' ->
     accounts s' = accounts s /\
     (exists acc acc',
        heap s !! r = Some acc /\ heap s' !! r = Some acc' /\ same_identity acc acc') /\
     (forall r', r' <> r -> heap s' !! r' = heap s !! r') /\
     (forall n n', find_account n s = Some r -> n' <> n ->
        account_of s' n' = account_of s n')).
Proof.
  split.
  - intros self a. split; [apply deposit_identity | apply withdraw_identity].
  - intros s op r a fuel s' Hop Hs Hrun.
    apply reachable_keys_match in Hs.
    destruct Hop as [-> | ->]; simpl in Hrun.
    + destruct (call _ r s) as [[ret s1]|] eqn:Hc; [|discriminate].
      injection Hrun as <-.
      eapply call_frame; [|exact Hs|exact Hc]. intros self. apply deposit_identity.
    + destruct (call _ r s) as [[ret s1]|] eqn:Hc; [|discriminate].
      injection Hrun as <-.
      eapply call_frame; [|exact Hs|exact Hc]. intros self. apply withdraw_identity.
Qed.

(** ** Balances *)

Lemma deposit_nonneg `{!PyNumExact A} self a :
  leb zero (balance self) = true ->
  leb zero (balance (self_after (deposit self a))) = true.
Proof.
  intros Hb. unfold deposit, gtb. destruct (ltb zero a) eqn:Ha; simpl; [|exact Hb].
  apply add_nonneg; assumption.
Qed.

Lemma withdraw_nonneg `{!PyNumExact A} self a :
  leb zero (balance self) = true ->
  leb zero (balance (self_after (withdraw self a))) = true.
Proof.
  intros Hb. unfold withdraw.
  destruct (ltb zero a) eqn:Ha; simpl.
  - destruct (leb a (balance self)) eqn:Hab; simpl.
    + apply sub_nonneg. exact Hab.
    + destruct (gtb a (balance self)); exact Hb.
  - destruct (gtb a (balance self)); exact Hb.
Qed.

Lemma run_balances_nonneg `{!PyNumExact A} fuel op s s' :
  balances_nonneg s -> run fuel op s = Some s' -> balances_nonneg s'.
Proof.
  intros Hinv. destruct op as [holder type d|r a|r a|r|n|n|]; simpl.
  - destruct (create_account fuel holder type d s) as [[res s1]|] eqn:Hc; [|discriminate].
    intros [= <-].
    apply create_account_inv in Hc as [(_ & _ & Hh & _)|(n & _ & Hd & _ & _ & Hh & _)];
      intros r0 acc0; rewrite Hh; [apply Hinv|].
    intros [Hold|[_ Hnew]]%lookup_app_Some; [exact (Hinv _ _ Hold)|].
    apply list_lookup_singleton_Some in Hnew as [_ <-]. simpl.
    apply ltb_total. exact Hd.
  - destruct (call _ r s) as [[ret s1]|] eqn:Hc; [|discriminate].
    intros [= <-]. apply call_inv in Hc as (self & Hr & _ & Hh & _).
    intros r0 acc0. rewrite Hh.
    intros [(_ & <- & _)|[_ Hold]]%list_lookup_insert_Some; [|exact (Hinv _ _ Hold)].
    apply deposit_nonneg. exact (Hinv _ _ Hr).
  - destruct (call _ r s) as [[ret s1]|] eqn:Hc; [|discriminate].
    intros [= <-]. apply call_inv in Hc as (self & Hr & _ & Hh & _).
    intros r0 acc0. rewrite Hh.
    intros [(_ & <- & _)|[_ Hold]]%list_lookup_insert_Some; [|exact (Hinv _ _ Hold)].
    apply withdraw_nonneg. exact (Hinv _ _ Hr).
  - destruct (heap s !! r); [|discriminate]. intros [= <-]. exact Hinv.
  - intros [= <-]. exact Hinv.
  - intros [= <-]. unfold close_account.
    destruct (dict_contains n (accounts s)); exact Hinv.
  - intros [= <-]. unfold list_all_accounts. destruct (accounts s); exact Hinv.
Qed.

(** X1. With exact arithmetic (Python's [int]), no balance of a reachable
    state is negative, whatever the operations were. *)
Lemma balances_nonneg_exact `{!PyNumExact A} s : reachable s -> balances_nonneg s.
Proof.
  induction 1 as [rnd bname|s op fuel s' _ IH Hrun].
  - intros r acc. simpl. discriminate.
  - eapply run_balances_nonneg; [exact IH | exact Hrun].
Qed.

End LedgerProperties.

(** ** The operations on concrete banks *)

Section Runs.

Lemma bank1_reachable : reachable bank1.
Proof.
  apply (run_all_reachable 1 [OpCreate "Alice" "Savings" 100] bank0).
  - apply reachable_init.
  - reflexivity.
Qed.

Lemma bank2_reachable : reachable bank2.
Proof.
  apply (run_all_reachable 3 [OpCreate "Bob" "Checking" 20] bank1).
  - exact bank1_reachable.
  - reflexivity.
Qed.

(** The scenario of §8: 100.00 in, 50.00 more, 200.00 refused, 150.00 out,
    closed, and not found any more. *)
Example alice_scenario_runs :
  exists s acc,
    run_all 1 alice_scenario fbank0 = Some s /\
    heap s !! 0%nat = Some acc /\
    balance acc = float_of_Z 0 /\
    find_account 1000000000 s = None /\
    stdout s =
      [MsgAccountCreated "Alice" 1000000000;
       MsgDeposited (float_of_Z 50) (float_of_Z 150);
       MsgInsufficientFunds;
       MsgWithdrew (float_of_Z 150) (float_of_Z 0);
       MsgAccountClosed 1000000000].
Proof. do 2 eexists. vm_compute. repeat split. Qed.

(** C1. A float infinity breaks the invariant: an account opened with
    [inf], a deposit that is not negative, accepts the withdrawal of [inf]
    and is left with the balance [inf - inf], a NaN, for which
    [balance >= 0] is false. *)
Theorem balance_invariant_broken_by_infinity :
  exists s acc,
    leb zero inf = true /\
    run_all 1 infinity_scenario fbank0 = Some s /\
    reachable s /\
    account_of s 1000000000 = Some acc /\
    balance acc = nan /\
    leb zero (balance acc) = false /\
    ~ balances_nonneg s.
Proof.
  assert (Hrun : run_all 1 infinity_scenario fbank0 =
    Some (mkState [mkAccount 1000000000 "Alice" "Savings" nan] "Bankify"
            [(1000000000, 0%nat)] (fun _ => 0) 1
            [MsgAccountCreated "Alice" 1000000000; MsgWithdrew inf nan]))
    by reflexivity.
  eexists. exists (mkAccount 1000000000 "Alice" "Savings" nan).
  split; [reflexivity|]. split; [exact Hrun|].
  split; [exact (run_all_reachable _ _ _ _ (reachable_init _ _) Hrun)|].
  split; [reflexivity|]. split; [reflexivity|]. split; [reflexivity|].
  intros Hinv. specialize (Hinv 0%nat _ eq_refl). discriminate.
Qed.

(** C3 as first stated fails on floats. On the account opened with
    [2.0**53], [deposit(1.0)] is accepted and prints its success, and the
    balance is what it was: the sum falls half way between two doubles and
    is rounded back. The balance has not increased by [1.0]. *)
Lemma deposit_rounding_counterexample :
  run_all 1 [OpCreate "Alice" "Savings" two53] fbank0 =
    Some (mkState [rich] "Bankify" [(1000000000, 0%nat)] (fun _ => 0) 1
            [MsgAccountCreated "Alice" 1000000000]) /\
  gtb one zero = true /\
  returned (deposit rich one) = true /\
  printed (deposit rich one) = [MsgDeposited one two53] /\
  balance (self_after (deposit rich one)) = balance rich /\
  sub (balance (self_after (deposit rich one))) (balance rich) <> one.
Proof.
  split; [reflexivity|]. split; [reflexivity|]. split; [reflexivity|].
  split; [reflexivity|]. split; [reflexivity|]. vm_compute. discriminate.
Qed.

(** C2 as first stated fails on floats. On the account opened with
    [2.0**54], [withdraw(1.0)] is accepted, with [0 < 1.0 <= 2.0**54], and
    the balance is what it was. The balance has not decreased by [1.0]. *)
Lemma withdraw_rounding_counterexample :
  run_all 1 [OpCreate "Alice" "Savings" two54] fbank0 =
    Some (mkState [richer] "Bankify" [(1000000000, 0%nat)] (fun _ => 0) 1
            [MsgAccountCreated "Alice" 1000000000]) /\
  ltb zero one = true /\ leb one (balance richer) = true /\
  returned (withdraw richer one) = true /\
  printed (withdraw richer one) = [MsgWithdrew one two54] /\
  balance (self_after (withdraw richer one)) = balance richer /\
  sub (balance richer) (balance (self_after (withdraw richer one))) <> one.
Proof.
  split; [reflexivity|]. split; [reflexivity|]. split; [reflexivity|].
  split; [reflexivity|]. split; [reflexivity|]. split; [reflexivity|].
  vm_compute. discriminate.
Qed.

Lemma deposit_spec_witness :
  (gtb (float_of_Z 50) zero = true /\
   returned (deposit falice (float_of_Z 50)) = true /\
   balance (self_after (deposit falice (float_of_Z 50))) = float_of_Z 150) /\
  (gtb inf zero = true /\
   returned (deposit falice inf) = true /\
   balance (self_after (deposit falice inf)) = inf) /\
  (leb (float_of_Z (-5)) zero = true /\
   self_after (deposit falice (float_of_Z (-5))) = falice /\
   returned (deposit falice (float_of_Z (-5))) = false /\
   printed (deposit falice (float_of_Z (-5))) = [MsgInvalidDeposit]).
Proof.
  split; [|split].
  - split; [reflexivity|].
    destruct (proj1 (deposit_spec falice (float_of_Z 50)) eq_refl) as (Hret & Hbal & _).
    split; [exact Hret|]. rewrite Hbal. reflexivity.
  - split; [reflexivity|].
    destruct (proj1 (deposit_spec falice inf) eq_refl) as (Hret & Hbal & _).
    split; [exact Hret|]. rewrite Hbal. reflexivity.
  - split; [reflexivity|].
    exact (proj2 (deposit_spec falice (float_of_Z (-5))) eq_refl).
Defined.

Lemma withdraw_three_way_witness :
  (ltb zero (float_of_Z 30) = true /\ leb (float_of_Z 30) (balance falice) = true /\
   returned (withdraw falice (float_of_Z 30)) = true /\
   balance (self_after (withdraw falice (float_of_Z 30))) = float_of_Z 70) /\
  (gtb (float_of_Z 200) (balance falice) = true /\ gtb (float_of_Z 200) zero = true /\
   self_after (withdraw falice (float_of_Z 200)) = falice /\
   returned (withdraw falice (float_of_Z 200)) = false /\
   printed (withdraw falice (float_of_Z 200)) = [MsgInsufficientFunds]) /\
  (leb (float_of_Z (-1)) zero = true /\ ltb (balance falice) zero = false /\
   self_after (withdraw falice (float_of_Z (-1))) = falice /\
   returned (withdraw falice (float_of_Z (-1))) = false /\
   printed (withdraw falice (float_of_Z (-1))) = [MsgInvalidWithdrawal]).
Proof.
  split; [|split].
  - split; [reflexivity|]. split; [reflexivity|].
    destruct (proj1 (withdraw_three_way falice (float_of_Z 30)) eq_refl eq_refl)
      as (Hret & Hbal & _).
    split; [exact Hret|]. rewrite Hbal. reflexivity.
  - split; [reflexivity|]. split; [reflexivity|].
    exact (proj1 (proj2 (withdraw_three_way falice (float_of_Z 200))) eq_refl eq_refl).
  - split; [reflexivity|]. split; [reflexivity|].
    destruct (proj2 (proj2 (withdraw_three_way falice (float_of_Z (-1)))) eq_refl)
      as (Hsame & Hret & _ & Hmsg).
    split; [exact Hsame|]. split; [exact Hret|]. exact (Hmsg eq_refl).
Defined.

Lemma withdraw_failures_same_result_witness :
  leb zero (balance falice) = true /\
  leb (float_of_Z 0) zero = true /\
  gtb (float_of_Z 101) (balance falice) = true /\
  gtb (float_of_Z 101) zero = true /\
  returned (withdraw falice (float_of_Z 0)) = false /\
  returned (withdraw falice (float_of_Z 101)) = false /\
  returned (withdraw falice (float_of_Z 0)) = returned (withdraw falice (float_of_Z 101)) /\
  printed (withdraw falice (float_of_Z 0)) = [MsgInvalidWithdrawal] /\
  printed (withdraw falice (float_of_Z 101)) = [MsgInsufficientFunds].
Proof.
  do 4 (split; [reflexivity|]).
  exact (withdraw_failures_same_result falice (float_of_Z 0) (float_of_Z 101)
           eq_refl eq_refl eq_refl eq_refl).
Defined.

(** On [bank1] the generator answers Alice's number twice more before it
    reaches a free one. *)
Lemma generate_account_number_terminates_witness :
  dict_contains (drawn bank1 2) (accounts bank1) = false /\
  exists fuel0 n s',
    (forall fuel, (fuel0 <= fuel)%nat ->
       _generate_account_number fuel bank1 = Some (n, s')) /\
    lowest_number <= n <= highest_number /\
    dict_contains n (accounts bank1) = false /\
    accounts s' = accounts bank1 /\ heap s' = heap bank1.
Proof.
  split; [reflexivity|].
  exact (generate_account_number_terminates bank1 2 eq_refl).
Defined.


Lemma create_account_rejects_negative_witness :
  ltb (-1) zero = true /\
  exists s',
    create_account 0 "Bob" "Checking" (-1) bank1 = Some (None, s') /\
    accounts s' = accounts bank1 /\
    length (accounts s') = length (accounts bank1) /\
    heap s' = heap bank1 /\
    draws s' = draws bank1 /\
    stdout s' = stdout bank1 ++ [MsgNegativeInitialDeposit].
Proof.
  split; [reflexivity|].
  exact (create_account_rejects_negative 0 "Bob" "Checking" (-1) bank1 eq_refl).
Defined.

Lemma close_account_spec_witness :
  (find_account 1000000007 bank2 = Some 1%nat /\
   fst (close_account 1000000007 bank2) = true /\
   find_account 1000000007 (snd (close_account 1000000007 bank2)) = None /\
   find_account 1000000000 (snd (close_account 1000000007 bank2)) = Some 0%nat) /\
  (find_account 42 bank2 = None /\
   fst (close_account 42 bank2) = false /\
   accounts (snd (close_account 42 bank2)) = accounts bank2).
Proof.
  split.
  - split; [reflexivity|].
    destruct (proj1 (close_account_spec bank2 1000000007) 1%nat eq_refl)
      as (Hret & Hgone & _ & Hothers).
    split; [exact Hret|]. split; [exact Hgone|].
    rewrite (Hothers 1000000000) by discriminate. reflexivity.
  - split; [reflexivity|].
    destruct (proj2 (close_account_spec bank2 42) eq_refl) as (Hret & Hsame & _).
    split; [exact Hret | exact Hsame].
Defined.

Lemma keys_are_account_numbers_witness :
  reachable bank2 /\ keys_match bank2 /\
  run 0 (OpClose 1000000000) bank2 = Some (snd (close_account 1000000000 bank2)) /\
  keys_match (snd (close_account 1000000000 bank2)).
Proof.
  split; [exact bank2_reachable|].
  split; [exact (proj1 keys_are_account_numbers bank2 bank2_reachable)|].
  split; [reflexivity|].
  exact (proj2 keys_are_account_numbers bank2 (OpClose 1000000000) 0%nat _
           (proj1 keys_are_account_numbers bank2 bank2_reachable) eq_refl).
Defined.

(** A deposit on Alice's account keeps her identity and leaves Bob's
    account as it was. *)
Lemma deposit_withdraw_frame_witness :
  same_identity alice (self_after (withdraw alice 30)) /\
  reachable bank2 /\
  find_account 1000000000 bank2 = Some 0%nat /\
  exists s',
    run 0 (OpDeposit 0%nat 50) bank2 = Some s' /\
    accounts s' = accounts bank2 /\
    account_of s' 1000000007 = Some bob.
Proof.
  split; [exact (proj2 (proj1 deposit_withdraw_frame alice 30))|].
  split; [exact bank2_reachable|]. split; [reflexivity|].
  eexists. split; [reflexivity|].
  destruct (proj2 deposit_withdraw_frame bank2 (OpDeposit 0%nat 50) 0%nat 50 0%nat _
              (or_introl eq_refl) bank2_reachable eq_refl)
    as (Hacc & _ & _ & Hothers).
  split; [exact Hacc|].
  rewrite (Hothers 1000000000 1000000007 eq_refl) by discriminate. reflexivity.
Defined.

End Runs.

(** * Further properties of the ledger *)

Section MoreDict.

Context {V : Type}.
Implicit Types (d : dict V) (k : Z) (v : V).

Lemma dict_absent_keys k d : dict_contains k d = false <-> k ∉ dict_keys d.
Proof.
  unfold dict_contains. induction d as [|[k0 v0] d IH]; simpl.
  - split; [intros _; apply not_elem_of_nil | reflexivity].
  - destruct (Z.eqb_spec k k0) as [->|Hne].
    + split; [discriminate|]. intros Hn. exfalso. apply Hn. apply elem_of_cons. left. reflexivity.
    + rewrite IH. split.
      * intros Hn [Heq|Hin]%elem_of_cons; [exact (Hne Heq) | exact (Hn Hin)].
      * intros Hn Hin. apply Hn. apply elem_of_cons. right. exact Hin.
Qed.

Lemma dict_del_one_less k v d :
  NoDup (dict_keys d) -> dict_get k d = Some v ->
  S (length (dict_del k d)) = length d.
Proof.
  induction d as [|[k0 v0] d IH]; simpl; [discriminate|].
  intros [Hk0 Hd]%NoDup_cons. destruct (Z.eqb_spec k k0) as [->|Hne].
  - intros _. rewrite dict_del_absent; [reflexivity|].
    apply dict_absent_keys. exact Hk0.
  - intros Hget. simpl. rewrite (IH Hd Hget). reflexivity.
Qed.

Lemma dict_entry_get k v d :
  NoDup (dict_keys d) -> (k, v) ∈ d -> dict_get k d = Some v.
Proof.
  induction d as [|[k0 v0] d IH]; simpl.
  - intros _ Hin. apply elem_of_nil in Hin. contradiction.
  - intros [Hk0 Hd]%NoDup_cons [Heq|Hin]%elem_of_cons.
    + injection Heq as -> ->. rewrite Z.eqb_refl. reflexivity.
    + destruct (Z.eqb_spec k k0) as [->|Hne]; [|exact (IH Hd Hin)].
      exfalso. apply Hk0. apply (list_elem_of_fmap_2 fst) in Hin. exact Hin.
Qed.

End MoreDict.

Section MoreLedgerProperties.

Context {A : Type} `{PyNum A}.
Implicit Types (self acc : Account A) (amount a : A) (s : State A) (op : Op A).
Implicit Types (r : ref) (n number : Z) (fuel k : nat).

(** ** Objects last, and keep their identity *)

Lemma same_identity_refl acc : same_identity acc acc.
Proof. repeat split. Qed.

Lemma same_identity_trans acc1 acc2 acc3 :
  same_identity acc1 acc2 -> same_identity acc2 acc3 -> same_identity acc1 acc3.
Proof. intros (? & ? & ?) (? & ? & ?). repeat split; congruence. Qed.

Lemma effect_identity s s' r acc :
  effect s s' -> heap s !! r = Some acc ->
  exists acc', heap s' !! r = Some acc' /\ same_identity acc acc'.
Proof.
  intros [Hh _|r0 self self' Hr0 Hid Hh _|n acc0 _ Hh _|n Hh _] Hr; rewrite Hh.
  - exists acc. split; [exact Hr | apply same_identity_refl].
  - destruct (decide (r0 = r)) as [->|Hne].
    + exists self'. split.
      * apply list_lookup_insert_eq. eapply lookup_lt_Some. exact Hr.
      * replace acc with self by congruence. exact Hid.
    + exists acc. rewrite list_lookup_insert_ne by exact Hne.
      split; [exact Hr | apply same_identity_refl].
  - exists acc. split; [|apply same_identity_refl].
    rewrite lookup_app_l by (eapply lookup_lt_Some; exact Hr). exact Hr.
  - exists acc. split; [exact Hr | apply same_identity_refl].
Qed.

(** X2. No operation deletes an [Account] object or assigns its number, its
    holder or its type: after any run, a reference that pointed to an
    account still points to one with the same three fields, closed or
    not. *)
Theorem account_identity_is_permanent fuel ops : forall s s' r acc,
  run_all fuel ops s = Some s' ->
  heap s !! r = Some acc ->
  exists acc', heap s' !! r = Some acc' /\ same_identity acc acc'.
Proof.
  induction ops as [|op ops IH]; intros s s' r acc; simpl.
  - intros [= <-] Hr. exists acc. split; [exact Hr | apply same_identity_refl].
  - destruct (run fuel op s) as [s1|] eqn:Hrun; [|discriminate].
    intros Hrest Hr.
    destruct (effect_identity s s1 r acc (run_effect _ _ _ _ Hrun) Hr) as (acc1 & Hr1 & Hid1).
    destruct (IH s1 s' r acc1 Hrest Hr1) as (acc' & Hr' & Hid').
    exists acc'. split; [exact Hr' | exact (same_identity_trans _ _ _ Hid1 Hid')].
Qed.

(** ** Account numbers have ten digits *)

Lemma run_keys_in_range fuel op s s' :
  keys_in_range s -> run fuel op s = Some s' -> keys_in_range s'.
Proof.
  intros Hinv. destruct op as [holder type d|r a|r a|r|n|n|]; simpl.
  - destruct (create_account fuel holder type d s) as [[res s1]|] eqn:Hc; [|discriminate].
    intros [= <-].
    apply create_account_inv in Hc as [(_ & _ & _ & Ha)|(n & _ & _ & Hn & _ & _ & Ha)];
      intros n0 r0; rewrite Ha; [apply Hinv|].
    rewrite dict_get_set. destruct (Z.eqb_spec n0 n) as [->|_]; [intros _; exact Hn|].
    apply Hinv.
  - destruct (call _ r s) as [[ret s1]|] eqn:Hc; [|discriminate].
    intros [= <-]. apply call_inv in Hc as (self & _ & _ & _ & Ha & _).
    intros n0 r0. rewrite Ha. apply Hinv.
  - destruct (call _ r s) as [[ret s1]|] eqn:Hc; [|discriminate].
    intros [= <-]. apply call_inv in Hc as (self & _ & _ & _ & Ha & _).
    intros n0 r0. rewrite Ha. apply Hinv.
  - destruct (heap s !! r); [|discriminate]. intros [= <-]. exact Hinv.
  - intros [= <-]. exact Hinv.
  - intros [= <-]. unfold close_account.
    destruct (dict_contains n (accounts s)); [|exact Hinv].
    intros n0 r0. simpl. rewrite dict_get_del.
    destruct (Z.eqb n0 n); [discriminate|]. apply Hinv.
  - intros [= <-]. unfold list_all_accounts. destruct (accounts s); exact Hinv.
Qed.

(** X3. In every reachable state each key of the mapping lies between
    1,000,000,000 and 9,999,999,999, so [find_account] finds nothing under
    a number outside of that range. *)
Theorem account_numbers_have_ten_digits s :
  reachable s ->
  keys_in_range s /\
  forall n, ~ (lowest_number <= n <= highest_number) -> find_account n s = None.
Proof.
  intros Hs.
  assert (Hinv : keys_in_range s).
  { induction Hs as [rnd bname|s op fuel s' _ IH Hrun].
    - intros n r. simpl. discriminate.
    - eapply run_keys_in_range; [exact IH | exact Hrun]. }
  split; [exact Hinv|].
  intros n Hout. unfold find_account.
  destruct (dict_get n (accounts s)) as [r|] eqn:Hget; [|reflexivity].
  exfalso. apply Hout. exact (Hinv n r Hget).
Qed.

(** ** Refused transactions *)

(** X4. A deposit or a withdrawal that returns [False] changes no object
    and not the mapping: it only prints its one message. *)
Theorem refused_transaction_changes_nothing s r a s' :
  call (fun self => deposit self a) r s = Some (false, s') \/
  call (fun self => withdraw self a) r s = Some (false, s') ->
  heap s' = heap s /\ accounts s' = accounts s /\ draws s' = draws s /\
  exists m, stdout s' = stdout s ++ [m].
Proof.
  unfold call. destruct (heap s !! r) as [self|] eqn:Hr; [|intros [|]; discriminate].
  assert (Hid : <[r := self]> (heap s) = heap s) by (apply list_insert_id; exact Hr).
  intros [Hcall|Hcall]; revert Hcall.
  - unfold deposit. destruct (gtb a zero); simpl; [discriminate|].
    intros [= <-]. simpl. rewrite Hid. eauto.
  - unfold withdraw. destruct (ltb zero a && leb a (balance self)); simpl; [discriminate|].
    destruct (gtb a (balance self)); intros [= <-]; simpl; rewrite Hid; eauto.
Qed.

(** ** Opening an account next to the others *)

(** X6. [create_account], accepted or refused, leaves every account of the
    mapping where it was: what [find_account] gave for a number before,
    it gives after, with the same data. *)
Theorem create_account_keeps_existing fuel holder type d s res s' n acc :
  create_account fuel holder type d s = Some (res, s') ->
  account_of s n = Some acc ->
  find_account n s' = find_account n s /\ account_of s' n = Some acc.
Proof.
  intros Hc. unfold account_of, find_account.
  apply create_account_inv in Hc as [(_ & _ & Hh & Ha)|(n0 & _ & _ & _ & Hfresh & Hh & Ha)];
    rewrite Hh, Ha; [auto|].
  destruct (dict_get n (accounts s)) as [r|] eqn:Hget; [|discriminate].
  intros Hr. rewrite dict_get_set.
  destruct (Z.eqb_spec n n0) as [->|_].
  - apply dict_absent_get in Hfresh. congruence.
  - rewrite Hget. split; [reflexivity|].
    rewrite lookup_app_l by (eapply lookup_lt_Some; exact Hr). exact Hr.
Qed.

(** ** Closing, and numbers that come back *)

(** X7. In a reachable state, closing an account that is there takes
    exactly one entry off the mapping and touches no object: the closed
    [Account] stays as it was for whoever still holds it. *)
Theorem close_account_removes_one s n r :
  reachable s ->
  find_account n s = Some r ->
  S (length (accounts (snd (close_account n s)))) = length (accounts s) /\
  heap (snd (close_account n s)) = heap s /\
  accounts (snd (close_account n s)) = dict_del n (accounts s).
Proof.
  intros Hs Hfind. unfold find_account in Hfind.
  unfold close_account, dict_contains. rewrite Hfind. simpl.
  split; [|split; reflexivity].
  eapply dict_del_one_less; [exact (reachable_keys_unique s Hs) | exact Hfind].
Qed.

(** X8. A closed number can be given out again. When the generator's next
    answer is the number just closed, [create_account] files a new object
    under it; the old object is another one, and is not changed. *)
Theorem closed_number_is_reused s n r holder type d fuel :
  keys_match s ->
  find_account n s = Some r ->
  drawn (snd (close_account n s)) 0 = n ->
  ltb d zero = false ->
  (0 < fuel)%nat ->
  exists r' s',
    create_account fuel holder type d (snd (close_account n s)) = Some (Some r', s') /\
    r' <> r /\
    find_account n s' = Some r' /\
    heap s' !! r' = Some (mkAccount n holder type d) /\
    heap s' !! r = heap s !! r.
Proof.
  intros Hkm Hfind Hdrawn Hd Hfuel.
  destruct (Hkm n r Hfind) as (old & Hold & _).
  set (s1 := snd (close_account n s)) in *.
  assert (Hh1 : heap s1 = heap s).
  { unfold s1, close_account. destruct (dict_contains n (accounts s)); reflexivity. }
  assert (Hfree : dict_contains n (accounts s1) = false).
  { unfold s1, close_account, dict_contains. unfold find_account in Hfind.
    rewrite Hfind. simpl. rewrite dict_get_del, Z.eqb_refl. reflexivity. }
  destruct fuel as [|fuel]; [lia|].
  assert (Hgen : _generate_account_number (S fuel) s1 = Some (n, advance 1 s1)).
  { rewrite generate_round, Hdrawn, Hfree. reflexivity. }
  exists (length (heap s)).
  rewrite (create_account_accepts _ holder type d s1 _ _ Hd Hgen). simpl. rewrite Hh1.
  eexists. split; [reflexivity|].
  apply lookup_lt_Some in Hold as Hlt.
  split; [lia|]. unfold find_account. simpl.
  rewrite dict_get_set, Z.eqb_refl.
  split; [reflexivity|].
  split; [apply list_lookup_middle; reflexivity|].
  apply lookup_app_l. exact Hlt.
Qed.

(** ** The generator loop *)

Lemma generate_inv fuel : forall s n s',
  _generate_account_number fuel s = Some (n, s') ->
  exists j, (j < fuel)%nat /\ n = drawn s j /\ s' = advance (S j) s /\
    (forall i, (i < j)%nat -> dict_contains (drawn s i) (accounts s) = true).
Proof.
  induction fuel as [|fuel IH]; intros s n s'; [discriminate|].
  rewrite generate_round.
  destruct (dict_contains (drawn s 0) (accounts s)) eqn:H0.
  - intros Hrun. apply IH in Hrun as (j & Hj & -> & -> & Hocc).
    exists (S j). split; [lia|]. split; [apply drawn_advance|].
    split; [rewrite advance_advance; f_equal; lia|].
    intros [|i] Hi; [exact H0|].
    specialize (Hocc i ltac:(lia)). rewrite drawn_advance in Hocc. exact Hocc.
  - intros [= <- <-]. exists 0%nat. split; [lia|]. split; [reflexivity|].
    split; [reflexivity|]. intros i Hi. lia.
Qed.

(** X9. Whatever [_generate_account_number] returns is the first answer of
    the generator that is not a key: every earlier answer was a key, one
    draw was used for each of them and one for the result, and nothing else
    in the state has moved. *)
Theorem generate_returns_first_free fuel s n s' :
  _generate_account_number fuel s = Some (n, s') ->
  exists j, (j < fuel)%nat /\
    n = drawn s j /\
    dict_contains n (accounts s) = false /\
    (forall i, (i < j)%nat -> dict_contains (drawn s i) (accounts s) = true) /\
    draws s' = (S j + draws s)%nat /\
    heap s' = heap s /\ accounts s' = accounts s /\ stdout s' = stdout s.
Proof.
  intros Hrun.
  pose proof (generate_sound _ _ _ _ Hrun) as (_ & Hfree & _).
  apply generate_inv in Hrun as (j & Hj & -> & -> & Hocc).
  exists j. simpl. auto 10.
Qed.

(** X10. The loop has no bound of its own: as long as the generator's
    answers are keys of the mapping it keeps drawing, and [create_account]
    with a deposit that is not negative does not return either. *)
Theorem generate_keeps_drawing_on_collisions fuel s holder type d :
  (forall i, (i < fuel)%nat -> dict_contains (drawn s i) (accounts s) = true) ->
  _generate_account_number fuel s = None /\
  (ltb d zero = false -> create_account fuel holder type d s = None).
Proof.
  intros Hocc.
  assert (Hgen : _generate_account_number fuel s = None).
  { destruct (_generate_account_number fuel s) as [[n s']|] eqn:Hrun; [|reflexivity].
    pose proof (generate_sound _ _ _ _ Hrun) as (_ & Hfree & _).
    apply generate_inv in Hrun as (j & Hj & -> & _ & _).
    rewrite (Hocc j Hj) in Hfree. discriminate. }
  split; [exact Hgen|].
  intros Hd. unfold create_account. rewrite Hd, Hgen. reflexivity.
Qed.

(** ** Listing *)

Lemma listed_exists s :
  keys_match s -> keys_unique s -> exists accs, listed s accs.
Proof.
  unfold listed, keys_match, keys_unique. intros Hkm Hu.
  assert (Hall : forall e, e ∈ accounts s ->
            exists acc, heap s !! snd e = Some acc /\ account_number acc = fst e).
  { intros [n r] Hin. apply Hkm. apply dict_entry_get; assumption. }
  clear Hkm Hu. induction (accounts s) as [|e d IH].
  - exists []. constructor.
  - destruct (Hall e) as (acc & Hacc); [apply elem_of_cons; left; reflexivity|].
    destruct IH as (accs & Haccs).
    { intros e' Hin. apply Hall. apply elem_of_cons. right. exact Hin. }
    exists (acc :: accs). constructor; assumption.
Qed.

Lemma listed_print s d accs :
  Forall2 (fun e acc => heap s !! snd e = Some acc /\ account_number acc = fst e) d accs ->
  concat (map (print_account s) (dict_values d)) =
  concat (map (fun acc => [MsgAccountDetails acc; MsgSeparator]) accs).
Proof.
  induction 1 as [|e acc d accs [Hacc _] _ IH]; [reflexivity|].
  simpl. unfold print_account at 1. rewrite Hacc. simpl. f_equal. f_equal. exact IH.
Qed.

End MoreLedgerProperties.

(** ** Integer amounts, and floats that are not numbers *)

Section Amounts.

(** X5. With integer amounts a deposit and a withdrawal of the same amount
    undo each other in the account: after [deposit(a)] on a balance that
    is not negative, [withdraw(a)] is not refused and leaves the account as
    it was before the two; and after a [withdraw(a)] that the balance
    covers, [deposit(a)] does. *)
Theorem deposit_and_withdraw_undo_each_other (self : Account Z) (a : Z) :
  0 < a ->
  (0 <= balance self ->
     balance (self_after (deposit self a)) = balance self + a /\
     self_after (withdraw (self_after (deposit self a)) a) = self) /\
  (a <= balance self ->
     balance (self_after (withdraw self a)) = balance self - a /\
     self_after (deposit (self_after (withdraw self a)) a) = self).
Proof.
  intros Ha. destruct self as [n h t b].
  assert (H0 : ltb (A:=Z) zero a = true) by (apply Z.ltb_lt; exact Ha).
  split; intros Hb.
  - assert (Hab : leb (A:=Z) a (add b a) = true) by (apply Z.leb_le; simpl in *; lia).
    unfold deposit, gtb. rewrite H0. unfold set_balance.
    cbn [self_after returned balance account_number name account_type].
    unfold withdraw, set_balance. cbn [balance]. rewrite H0, Hab.
    cbn [andb self_after returned balance account_number name account_type].
    split; [reflexivity|]. f_equal. simpl. lia.
  - assert (Hab : leb (A:=Z) a b = true) by (apply Z.leb_le; simpl in *; lia).
    unfold withdraw, set_balance. cbn [balance]. rewrite H0, Hab.
    cbn [andb self_after returned balance account_number name account_type].
    unfold deposit, gtb, set_balance. rewrite H0.
    cbn [self_after returned balance account_number name account_type].
    split; [reflexivity|]. f_equal. simpl. lia.
Qed.

(** X11. With float amounts, [list_all_accounts] changes neither an object
    nor the mapping. In a reachable state it prints, after the header, the
    details of every account of the mapping once, in the order of
    insertion, each followed by a separator; on an empty mapping it prints
    that there are no accounts. *)
Theorem list_all_accounts_prints_each_account (s : State float64) :
  reachable s ->
  heap (list_all_accounts s) = heap s /\
  accounts (list_all_accounts s) = accounts s /\
  (accounts s = [] -> stdout (list_all_accounts s) = stdout s ++ [MsgNoAccounts]) /\
  (accounts s <> [] ->
     exists accs, listed s accs /\
       length accs = length (accounts s) /\
       stdout (list_all_accounts s) =
         stdout s ++ MsgAllAccountsHeader ::
           concat (map (fun acc => [MsgAccountDetails acc; MsgSeparator]) accs)).
Proof.
  intros Hs.
  destruct (listed_exists s (reachable_keys_match s Hs) (reachable_keys_unique s Hs))
    as (accs & Haccs).
  unfold list_all_accounts, listed in *.
  destruct (accounts s) as [|e d] eqn:Hd.
  - repeat split; [simpl; exact Hd | congruence].
  - split; [reflexivity|]. split; [simpl; exact Hd|].
    split; [discriminate|]. intros _. exists accs.
    split; [exact Haccs|].
    split; [symmetry; exact (Forall2_length _ _ _ Haccs)|].
    simpl stdout. f_equal. f_equal. exact (listed_print s _ _ Haccs).
Qed.


End Amounts.

(** ** The further properties on concrete banks *)

Section MoreRuns.

Lemma balances_nonneg_exact_witness : reachable bank2 /\ balances_nonneg bank2.
Proof.
  split; [exact bank2_reachable|].
  exact (balances_nonneg_exact bank2 bank2_reachable).
Defined.

Lemma account_identity_is_permanent_witness :
  run_all 0 [OpDeposit 0%nat 50; OpClose 1000000000; OpWithdraw 0%nat 120] bank2 <> None /\
  heap bank2 !! 0%nat = Some alice /\
  exists s' acc',
    run_all 0 [OpDeposit 0%nat 50; OpClose 1000000000; OpWithdraw 0%nat 120] bank2 = Some s' /\
    heap s' !! 0%nat = Some acc' /\ same_identity alice acc'.
Proof.
  split; [discriminate|]. split; [reflexivity|].
  eexists. 
  destruct (account_identity_is_permanent 0
              [OpDeposit 0%nat 50; OpClose 1000000000; OpWithdraw 0%nat 120]
              bank2 _ 0%nat alice eq_refl eq_refl) as (acc' & Hacc' & Hid).
  exists acc'. split; [reflexivity|]. split; [exact Hacc' | exact Hid].
Defined.

Lemma account_numbers_have_ten_digits_witness :
  reachable bank2 /\ keys_in_range bank2 /\ find_account 999999999 bank2 = None.
Proof.
  split; [exact bank2_reachable|].
  destruct (account_numbers_have_ten_digits bank2 bank2_reachable) as [Hr Hout].
  split; [exact Hr|]. apply Hout. unfold lowest_number. lia.
Defined.

Lemma refused_transaction_changes_nothing_witness :
  exists s',
    call (fun self => withdraw self 500) 0%nat bank2 = Some (false, s') /\
    heap s' = heap bank2 /\ accounts s' = accounts bank2 /\ draws s' = draws bank2 /\
    exists m, stdout s' = stdout bank2 ++ [m].
Proof.
  eexists. split; [reflexivity|].
  exact (refused_transaction_changes_nothing bank2 0%nat 500 _ (or_intror eq_refl)).
Defined.

Lemma create_account_keeps_existing_witness :
  exists res s',
    create_account 3 "Bob" "Checking" 20 bank1 = Some (res, s') /\
    account_of bank1 1000000000 = Some alice /\
    find_account 1000000000 s' = find_account 1000000000 bank1 /\
    account_of s' 1000000000 = Some alice.
Proof.
  do 2 eexists. split; [reflexivity|]. split; [reflexivity|].
  exact (create_account_keeps_existing 3 "Bob" "Checking" 20 bank1 _ _
           1000000000 alice eq_refl eq_refl).
Defined.

Lemma close_account_removes_one_witness :
  reachable bank2 /\
  find_account 1000000000 bank2 = Some 0%nat /\
  S (length (accounts (snd (close_account 1000000000 bank2)))) = length (accounts bank2) /\
  heap (snd (close_account 1000000000 bank2)) = heap bank2 /\
  accounts (snd (close_account 1000000000 bank2)) = dict_del 1000000000 (accounts bank2).
Proof.
  split; [exact bank2_reachable|]. split; [reflexivity|].
  exact (close_account_removes_one bank2 1000000000 0%nat bank2_reachable eq_refl).
Defined.

Lemma closed_number_is_reused_witness :
  keys_match bank1 /\
  find_account 1000000000 bank1 = Some 0%nat /\
  drawn (snd (close_account 1000000000 bank1)) 0 = 1000000000 /\
  ltb 5 zero = false /\
  (0 < 1)%nat /\
  exists r' s',
    create_account 1 "Carol" "Savings" 5 (snd (close_account 1000000000 bank1))
      = Some (Some r', s') /\
    r' <> 0%nat /\
    find_account 1000000000 s' = Some r' /\
    heap s' !! r' = Some (mkAccount 1000000000 "Carol" "Savings" 5) /\
    heap s' !! 0%nat = heap bank1 !! 0%nat.
Proof.
  split; [exact (reachable_keys_match bank1 bank1_reachable)|].
  split; [reflexivity|]. split; [reflexivity|]. split; [reflexivity|].
  split; [lia|].
  exact (closed_number_is_reused bank1 1000000000 0%nat "Carol" "Savings" 5 1
           (reachable_keys_match bank1 bank1_reachable) eq_refl eq_refl eq_refl
           (Nat.lt_0_succ 0)).
Defined.

Lemma generate_returns_first_free_witness :
  _generate_account_number 5 bank1 = Some (1000000007, advance 3 bank1) /\
  exists j, (j < 5)%nat /\
    1000000007 = drawn bank1 j /\
    dict_contains 1000000007 (accounts bank1) = false /\
    (forall i, (i < j)%nat -> dict_contains (drawn bank1 i) (accounts bank1) = true) /\
    draws (advance 3 bank1) = (S j + draws bank1)%nat /\
    heap (advance 3 bank1) = heap bank1 /\
    accounts (advance 3 bank1) = accounts bank1 /\
    stdout (advance 3 bank1) = stdout bank1.
Proof.
  split; [reflexivity|].
  exact (generate_returns_first_free 5 bank1 1000000007 (advance 3 bank1) eq_refl).
Defined.

Lemma generate_keeps_drawing_on_collisions_witness :
  (forall i, (i < 2)%nat -> dict_contains (drawn bank1 i) (accounts bank1) = true) /\
  _generate_account_number 2 bank1 = None /\
  (ltb 20 zero = false -> create_account 2 "Bob" "Checking" 20 bank1 = None).
Proof.
  assert (Hocc : forall i, (i < 2)%nat ->
            dict_contains (drawn bank1 i) (accounts bank1) = true).
  { intros [|[|i]] Hi; [reflexivity | reflexivity | lia]. }
  split; [exact Hocc|].
  exact (generate_keeps_drawing_on_collisions 2 bank1 "Bob" "Checking" 20 Hocc).
Defined.

Lemma fbank2_reachable : reachable fbank2.
Proof.
  apply (run_all_reachable 3
           [OpCreate "Alice" "Savings" (float_of_Z 100);
            OpCreate "Bob" "Checking" (float_of_Z 20)]
           (Bank_init repeating_generator "Bankify")).
  - apply reachable_init.
  - reflexivity.
Qed.

Lemma list_all_accounts_prints_each_account_witness :
  reachable fbank2 /\
  stdout (list_all_accounts fbank2) =
    stdout fbank2 ++
      [MsgAllAccountsHeader; MsgAccountDetails falice; MsgSeparator;
       MsgAccountDetails fbob; MsgSeparator] /\
  heap (list_all_accounts fbank2) = heap fbank2 /\
  accounts (list_all_accounts fbank2) = accounts fbank2.
Proof.
  split; [exact fbank2_reachable|]. split; [reflexivity|].
  destruct (list_all_accounts_prints_each_account fbank2 fbank2_reachable)
    as (Hh & Ha & _).
  split; [exact Hh | exact Ha].
Defined.

Lemma deposit_and_withdraw_undo_each_other_witness :
  0 < 30 /\ 0 <= balance alice /\ 30 <= balance alice /\
  self_after (withdraw (self_after (deposit alice 30)) 30) = alice /\
  self_after (deposit (self_after (withdraw alice 30)) 30) = alice.
Proof.
  split; [lia|]. split; [simpl; lia|]. split; [simpl; lia|].
  destruct (deposit_and_withdraw_undo_each_other alice 30 ltac:(lia)) as [Hdw Hwd].
  split.
  - apply Hdw. simpl. lia.
  - apply Hwd. simpl. lia.
Defined.


End MoreRuns.

(** * The windows *)

Section GuiProperties.

Variable py_int : string -> option Z.
Variable py_float : string -> option float64.

Implicit Types (g : Gui) (self : Account float64) (amount : float64).
Implicit Types (acc_num : Z) (account : ref) (p : Page) (e : Entry).

Lemma bank_show_frame p g : bank (show_frame p g) = bank g.
Proof. destruct p; reflexivity. Qed.

Lemma dialogs_show_frame p g : dialogs (show_frame p g) = dialogs g.
Proof. destruct p; reflexivity. Qed.

Lemma entries_show_frame p g : entries (show_frame p g) = entries g.
Proof. destruct p; reflexivity. Qed.

Lemma raised_show_frame p g : raised (show_frame p g) = p.
Proof. destruct p; reflexivity. Qed.

(** ** Withdrawing through the window *)

Lemma withdraw_failure_kind self amount :
  amount <> nan ->
  leb zero (balance self) = true ->
  returned (withdraw self amount) = false ->
  (leb amount zero = true /\
   withdraw self amount = mkOutcome self false [MsgInvalidWithdrawal]) \/
  (leb amount zero = false /\
   withdraw self amount = mkOutcome self false [MsgInsufficientFunds]).
Proof.
  intros Hnan Hb Hret. destruct (leb amount zero) eqn:Ha.
  - left. split; [reflexivity|]. apply withdraw_invalid; assumption.
  - right. split; [reflexivity|]. apply withdraw_insufficient.
    assert (Hpos : ltb zero amount = true).
    { apply float_not_leb_ltb; [exact Hnan | discriminate | exact Ha]. }
    unfold gtb. apply float_not_leb_ltb; [exact Hnan | apply (float_leb_not_nan _ _ Hb) |].
    unfold withdraw in Hret. rewrite Hpos in Hret.
    destruct (leb amount (balance self)); [discriminate | reflexivity].
Qed.

(** X13. The window of a refused withdrawal tells the failure from
    [amount <= 0] alone. For an amount that is a number, on a balance that
    is not negative, its message names the same failure as the one that
    [withdraw] printed to the console. *)
Theorem on_withdraw_dialog_matches_console g acc_num amount account self :
  py_int (entries g (acc_num_entry WithdrawPage)) = Some acc_num ->
  py_float (entries g (amount_entry WithdrawPage)) = Some amount ->
  find_account acc_num (bank g) = Some account ->
  heap (bank g) !! account = Some self ->
  amount <> nan ->
  leb zero (balance self) = true ->
  returned (withdraw self amount) = false ->
  exists g',
    on_withdraw py_int py_float g = Some g' /\
    heap (bank g') = heap (bank g) /\
    ((dialogs g' = dialogs g ++
        [showerror "Error" [Lit "Invalid withdrawal amount. Must be positive."]] /\
      stdout (bank g') = stdout (bank g) ++ [MsgInvalidWithdrawal]) \/
     (dialogs g' = dialogs g ++ [showerror "Error" [Lit "Insufficient funds."]] /\
      stdout (bank g') = stdout (bank g) ++ [MsgInsufficientFunds])).
Proof.
  intros Hint Hfloat Hfind Hself Hnan Hb Hret.
  unfold on_withdraw. rewrite Hint, Hfloat, Hfind. unfold call. rewrite Hself.
  assert (Hid : <[account := self]> (heap (bank g)) = heap (bank g))
    by (apply list_insert_id; exact Hself).
  destruct (withdraw_failure_kind self amount Hnan Hb Hret) as [[Ha ->]|[Ha ->]];
    cbn [returned self_after printed]; rewrite Ha;
    eexists; (split; [reflexivity|]); (split; [exact Hid|]); [left | right];
    split; reflexivity.
Qed.

(** X14. For an amount that is not a number the two differ: [withdraw]
    prints that the amount is invalid, and the window, for which
    [nan <= 0] is false, says that the funds are insufficient. No account
    is changed. *)
Theorem on_withdraw_nan_is_misreported g acc_num account self :
  py_int (entries g (acc_num_entry WithdrawPage)) = Some acc_num ->
  py_float (entries g (amount_entry WithdrawPage)) = Some nan ->
  find_account acc_num (bank g) = Some account ->
  heap (bank g) !! account = Some self ->
  exists g',
    on_withdraw py_int py_float g = Some g' /\
    heap (bank g') = heap (bank g) /\
    accounts (bank g') = accounts (bank g) /\
    dialogs g' = dialogs g ++ [showerror "Error" [Lit "Insufficient funds."]] /\
    stdout (bank g') = stdout (bank g) ++ [MsgInvalidWithdrawal].
Proof.
  intros Hint Hfloat Hfind Hself.
  unfold on_withdraw. rewrite Hint, Hfloat, Hfind. unfold call. rewrite Hself.
  assert (Hid : <[account := self]> (heap (bank g)) = heap (bank g))
    by (apply list_insert_id; exact Hself).
  assert (Hw : withdraw self nan = mkOutcome self false [MsgInvalidWithdrawal]).
  { unfold withdraw, gtb. simpl. destruct (balance self) as [[]|[]| |[] m e]; reflexivity. }
  rewrite Hw. cbn [returned self_after printed].
  replace (leb nan zero) with false by reflexivity.
  eexists. split; [reflexivity|]. split; [exact Hid|]. repeat split.
Qed.

(** ** Closing through the window *)


(** ** Input that is refused *)

(** X17. A page whose account-number entry does not hold the number of an
    account (the text is not an integer, or no account has that number)
    shows one error box and does no more: the bank, its console included,
    the entries and the page on top are as before. The same holds for the
    deposit and withdrawal pages when the amount is not a number. *)
Theorem handlers_refuse_unknown_accounts g :
  (no_such_account py_int (acc_num_entry DepositPage) g \/
   py_float (entries g (amount_entry DepositPage)) = None ->
   refuses (on_deposit py_int py_float) g) /\
  (no_such_account py_int (acc_num_entry WithdrawPage) g \/
   py_float (entries g (amount_entry WithdrawPage)) = None ->
   refuses (on_withdraw py_int py_float) g) /\
  (no_such_account py_int (acc_num_entry BalancePage) g ->
   refuses (on_check py_int) g) /\
  (no_such_account py_int (acc_num_entry DetailsPage) g ->
   refuses (on_details py_int) g) /\
  (forall answer,
     no_such_account py_int (acc_num_entry CloseAccountPage) g ->
     refuses (on_close py_int answer) g).
Proof.
  unfold no_such_account, refuses, on_deposit, on_withdraw, on_check, on_details, on_close.
  repeat split.
  - destruct (py_int _) as [n|]; [|intros _; do 2 eexists; reflexivity].
    destruct (py_float _) as [a|]; [|intros _; do 2 eexists; reflexivity].
    intros [->|Hf]; [do 2 eexists; reflexivity | discriminate].
  - destruct (py_int _) as [n|]; [|intros _; do 2 eexists; reflexivity].
    destruct (py_float _) as [a|]; [|intros _; do 2 eexists; reflexivity].
    intros [->|Hf]; [do 2 eexists; reflexivity | discriminate].
  - destruct (py_int _) as [n|]; [intros ->|intros _]; do 2 eexists; reflexivity.
  - destruct (py_int _) as [n|]; [intros ->|intros _]; do 2 eexists; reflexivity.
  - intros answer.
    destruct (py_int _) as [n|]; [intros ->|intros _]; do 2 eexists; reflexivity.
Qed.


(** ** Depositing through the window *)

(** X19. An accepted deposit through the window: the account found under
    the typed number gets the balance [balance + amount], the box shows the
    amount and that new balance, both entries of the page are cleared and
    the menu comes back on top. *)
Theorem on_deposit_accepted g acc_num amount account self :
  py_int (entries g (acc_num_entry DepositPage)) = Some acc_num ->
  py_float (entries g (amount_entry DepositPage)) = Some amount ->
  find_account acc_num (bank g) = Some account ->
  heap (bank g) !! account = Some self ->
  gtb amount zero = true ->
  exists g',
    on_deposit py_int py_float g = Some g' /\
    account_of (bank g') acc_num =
      Some (set_balance self (add (balance self) amount)) /\
    dialogs g' = dialogs g ++
      [showinfo "Success"
         [Lit "Deposited $"; Money amount; Lit "."; Lit nl;
          Lit "New Balance: $"; Money (add (balance self) amount)]] /\
    entries g' (acc_num_entry DepositPage) = EmptyString /\
    entries g' (amount_entry DepositPage) = EmptyString /\
    raised g' = StartPage.
Proof.
  intros Hint Hfloat Hfind Hself Hpos.
  assert (Hlt : (account < length (heap (bank g)))%nat)
    by (eapply lookup_lt_Some; exact Hself).
  unfold on_deposit. rewrite Hint, Hfloat, Hfind. unfold call. rewrite Hself.
  unfold deposit. rewrite Hpos. cbn [returned self_after printed].
  cbn [heap print set_heap]. rewrite (list_lookup_insert_eq _ _ _ Hlt).
  eexists. split; [reflexivity|].
  split.
  { unfold account_of, find_account in *. simpl. rewrite Hfind.
    apply list_lookup_insert_eq. exact Hlt. }
  repeat split.
Qed.

(** ** The window and the bank *)

Lemma handle_bank fuel ev g g' :
  handle py_int py_float fuel ev g = Some g' ->
  bank g' = bank g \/
  exists op, run fuel op (bank g) = Some (bank g') /\
    match op with
    | OpCreate holder type _ => is_empty holder = false /\ is_empty type = false
    | _ => True
    end.
Proof.
  destruct ev as [e text|p| | | | | |answer]; simpl.
  - intros [= <-]. left. reflexivity.
  - intros [= <-]. left. apply bank_show_frame.
  - unfold on_create. destruct (py_float _) as [d|]; [|intros [= <-]; left; reflexivity].
    destruct (is_empty (entries g HoldersName) || is_empty (entries g AccountType)) eqn:He;
      [intros [= <-]; left; reflexivity|].
    apply orb_false_elim in He.
    destruct (create_account fuel _ _ d (bank g)) as [[[r|] b]|] eqn:Hc; [| |discriminate].
    + destruct (heap b !! r); [|discriminate]. intros [= <-]. right.
      exists (OpCreate (entries g HoldersName) (entries g AccountType) d).
      split; [|exact He]. cbn [run]. rewrite Hc. reflexivity.
    + intros [= <-]. right.
      exists (OpCreate (entries g HoldersName) (entries g AccountType) d).
      split; [|exact He]. cbn [run]. rewrite Hc. reflexivity.
  - unfold on_deposit. destruct (py_int _) as [n|]; [|intros [= <-]; left; reflexivity].
    destruct (py_float _) as [a|]; [|intros [= <-]; left; reflexivity].
    destruct (find_account n (bank g)) as [r|]; [|intros [= <-]; left; reflexivity].
    destruct (call _ r (bank g)) as [[[] b]|] eqn:Hc; [| |discriminate].
    + destruct (heap b !! r); [|discriminate]. intros [= <-]. right.
      exists (OpDeposit r a). split; [|exact I]. cbn [run]. rewrite Hc. reflexivity.
    + intros [= <-]. right.
      exists (OpDeposit r a). split; [|exact I]. cbn [run]. rewrite Hc. reflexivity.
  - unfold on_withdraw. destruct (py_int _) as [n|]; [|intros [= <-]; left; reflexivity].
    destruct (py_float _) as [a|]; [|intros [= <-]; left; reflexivity].
    destruct (find_account n (bank g)) as [r|]; [|intros [= <-]; left; reflexivity].
    destruct (call _ r (bank g)) as [[[] b]|] eqn:Hc; [| |discriminate].
    + destruct (heap b !! r); [|discriminate]. intros [= <-]. right.
      exists (OpWithdraw r a). split; [|exact I]. cbn [run]. rewrite Hc. reflexivity.
    + destruct (leb a zero); intros [= <-]; right;
        exists (OpWithdraw r a); (split; [|exact I]); cbn [run]; rewrite Hc; reflexivity.
  - unfold on_check. destruct (py_int _) as [n|]; [|intros [= <-]; left; reflexivity].
    destruct (find_account n (bank g)) as [r|]; [|intros [= <-]; left; reflexivity].
    destruct (heap (bank g) !! r); [|discriminate]. intros [= <-]. left. reflexivity.
  - unfold on_details. destruct (py_int _) as [n|]; [|intros [= <-]; left; reflexivity].
    destruct (find_account n (bank g)) as [r|]; [|intros [= <-]; left; reflexivity].
    destruct (heap (bank g) !! r); [|discriminate]. intros [= <-]. left. reflexivity.
  - unfold on_close. destruct (py_int _) as [n|]; [|intros [= <-]; left; reflexivity].
    destruct (find_account n (bank g)) as [r|]; [|intros [= <-]; left; reflexivity].
    destruct (heap (bank g) !! r); [|discriminate].
    destruct answer; [|intros [= <-]; left; reflexivity].
    cbn [bank messagebox].
    destruct (close_account n (bank g)) as [closed b] eqn:Hc.
    destruct closed; intros [= <-]; right; exists (OpClose n); (split; [|exact I]);
      cbn [run]; rewrite Hc; reflexivity.
Qed.

Lemma gui_reachable_bank g : gui_reachable py_int py_float g -> reachable (bank g).
Proof.
  induction 1 as [rnd|g ev fuel g' _ IH Hev].
  - unfold BankApp_init. rewrite bank_show_frame. apply reachable_init.
  - apply handle_bank in Hev as [->|(op & Hrun & _)]; [exact IH|].
    eapply reachable_step; [exact IH | exact Hrun].
Qed.

Lemma reachable_keys_in_range (s : State float64) : reachable s -> keys_in_range s.
Proof.
  induction 1 as [rnd bname|s op fuel s' _ IH Hrun].
  - intros n r. simpl. discriminate.
  - eapply run_keys_in_range; [exact IH | exact Hrun].
Qed.

(** X20. Whatever the user does, the bank behind the window is in a state
    that the core operations reach; so each number that a page finds is a
    ten-digit key that leads to a live account with that number, and no
    handler ever meets a reference to nothing. *)
Theorem window_drives_the_bank_by_core_operations g :
  gui_reachable py_int py_float g ->
  reachable (bank g) /\
  forall acc_num account,
    find_account acc_num (bank g) = Some account ->
    lowest_number <= acc_num <= highest_number /\
    exists self, heap (bank g) !! account = Some self /\ account_number self = acc_num.
Proof.
  intros Hg. pose proof (gui_reachable_bank g Hg) as Hs.
  split; [exact Hs|]. intros acc_num account Hfind. split.
  - exact (reachable_keys_in_range _ Hs acc_num account Hfind).
  - exact (reachable_keys_match _ Hs acc_num account Hfind).
Qed.

(** ** Holders and types *)

Lemma run_holders_named fuel (op : Op float64) (s s' : State float64) :
  holders_named s ->
  match op with
  | OpCreate holder type _ => is_empty holder = false /\ is_empty type = false
  | _ => True
  end ->
  run fuel op s = Some s' -> holders_named s'.
Proof.
  intros Hinv Hop. destruct op as [holder type d|r a|r a|r|n|n|]; simpl.
  - destruct (create_account fuel holder type d s) as [[res s1]|] eqn:Hc; [|discriminate].
    intros [= <-].
    apply create_account_inv in Hc as [(_ & _ & Hh & _)|(n & _ & _ & _ & _ & Hh & _)];
      intros r0 acc0; rewrite Hh; [apply Hinv|].
    intros [Hold|[_ Hnew]]%lookup_app_Some; [exact (Hinv _ _ Hold)|].
    apply list_lookup_singleton_Some in Hnew as [_ <-]. exact Hop.
  - destruct (call _ r s) as [[ret s1]|] eqn:Hc; [|discriminate].
    intros [= <-]. apply call_inv in Hc as (self & Hr & _ & Hh & _).
    intros r0 acc0. rewrite Hh.
    intros [(_ & <- & _)|[_ Hold]]%list_lookup_insert_Some; [|exact (Hinv _ _ Hold)].
    destruct (deposit_identity self a) as (_ & -> & ->). exact (Hinv _ _ Hr).
  - destruct (call _ r s) as [[ret s1]|] eqn:Hc; [|discriminate].
    intros [= <-]. apply call_inv in Hc as (self & Hr & _ & Hh & _).
    intros r0 acc0. rewrite Hh.
    intros [(_ & <- & _)|[_ Hold]]%list_lookup_insert_Some; [|exact (Hinv _ _ Hold)].
    destruct (withdraw_identity self a) as (_ & -> & ->). exact (Hinv _ _ Hr).
  - destruct (heap s !! r); [|discriminate]. intros [= <-]. exact Hinv.
  - intros [= <-]. exact Hinv.
  - intros [= <-]. unfold close_account.
    destruct (dict_contains n (accounts s)); exact Hinv.
  - intros [= <-]. unfold list_all_accounts. destruct (accounts s); exact Hinv.
Qed.

(** X16. The window never opens an account without a holder or without a
    type: in every state of the application, each account has a holder
    name and a type that are not empty. *)
Theorem window_accounts_have_holder_and_type g :
  gui_reachable py_int py_float g -> holders_named (bank g).
Proof.
  induction 1 as [rnd|g ev fuel g' _ IH Hev].
  - unfold BankApp_init. rewrite bank_show_frame. intros r acc. simpl. discriminate.
  - apply handle_bank in Hev as [->|(op & Hrun & Hop)]; [exact IH|].
    exact (run_holders_named fuel op _ _ IH Hop Hrun).
Qed.

(** ** The listing page *)

Lemma listed_lines (b : State float64) (d : dict ref) accs :
  Forall2 (fun item acc => heap b !! snd item = Some acc /\ account_number acc = fst item)
    d accs ->
  concat (map (item_lines b) d) = concat (map account_lines accs).
Proof.
  induction 1 as [|item acc d accs [Hacc _] _ IH]; [reflexivity|].
  cbn [map concat]. unfold item_lines at 1. rewrite Hacc, IH. reflexivity.
Qed.

(** X18. Raising the listing page refreshes it from the bank and changes
    nothing in it: the text area then holds the five lines of every
    account of the mapping, once each and in the order of insertion, or
    the sentence that there are no accounts. *)
Theorem listing_page_shows_each_account g :
  gui_reachable py_int py_float g ->
  bank (show_frame AllAccountsPage g) = bank g /\
  raised (show_frame AllAccountsPage g) = AllAccountsPage /\
  (accounts (bank g) = [] ->
     text_area (show_frame AllAccountsPage g) = [Lit "No accounts in the bank."]) /\
  (accounts (bank g) <> [] ->
     exists accs, listed (bank g) accs /\
       length accs = length (accounts (bank g)) /\
       text_area (show_frame AllAccountsPage g) = concat (map account_lines accs)).
Proof.
  intros Hg. pose proof (gui_reachable_bank g Hg) as Hs.
  destruct (listed_exists _ (reachable_keys_match _ Hs) (reachable_keys_unique _ Hs))
    as (accs & Haccs).
  split; [reflexivity|]. split; [reflexivity|].
  unfold show_frame, on_show, listed in *. cbn [bank text_area].
  destruct (accounts (bank g)) as [|item d] eqn:Hd.
  - split; [reflexivity | congruence].
  - split; [discriminate|]. intros _. exists accs.
    split; [exact Haccs|].
    split; [symmetry; exact (Forall2_length _ _ _ Haccs)|].
    exact (listed_lines _ _ _ Haccs).
Qed.

(** ** Opening an account through the window *)

(** X22. A filled-in form with a deposit that is not negative opens an
    account once the generator reaches a free number: the account is filed
    under a number that was not a key, with the typed holder and type and
    the deposit as balance; the box names that number; the three entries
    are cleared and the menu comes back on top. *)
Theorem on_create_accepted g d k fuel :
  py_float (entries g InitialDeposit) = Some d ->
  is_empty (entries g HoldersName) = false ->
  is_empty (entries g AccountType) = false ->
  ltb d zero = false ->
  dict_contains (drawn (bank g) k) (accounts (bank g)) = false ->
  (k < fuel)%nat ->
  exists g' n,
    on_create py_float fuel g = Some g' /\
    dict_contains n (accounts (bank g)) = false /\
    account_of (bank g') n =
      Some (mkAccount n (entries g HoldersName) (entries g AccountType) d) /\
    dialogs g' = dialogs g ++
      [showinfo "Success"
         [Lit "Account created for "; Lit (entries g HoldersName); Lit "!"; Lit nl;
          Lit "Account Number: "; Num n]] /\
    entries g' HoldersName = EmptyString /\
    entries g' AccountType = EmptyString /\
    entries g' InitialDeposit = EmptyString /\
    raised g' = StartPage.
Proof.
  intros Hfloat Hname Htype Hd Hfree Hfuel.
  destruct (generate_first_free k (bank g) Hfree) as (j & Hj & Hfj & _ & Hrun).
  unfold on_create. rewrite Hfloat, Hname, Htype. cbn [orb].
  rewrite (create_account_accepts fuel _ _ d (bank g) _ _ Hd (Hrun fuel ltac:(lia))).
  cbn [heap print set_accounts set_heap advance].
  rewrite list_lookup_middle by reflexivity.
  do 2 eexists. split; [reflexivity|].
  split; [exact Hfj|]. split.
  { unfold account_of, find_account. simpl.
    rewrite dict_get_set, Z.eqb_refl. apply list_lookup_middle. reflexivity. }
  repeat split.
Qed.

End GuiProperties.

(** ** The windows in a concrete session *)

Section GuiRuns.

Lemma handle_all_reachable py_int py_float fuel evs : forall g g',
  gui_reachable py_int py_float g ->
  handle_all py_int py_float fuel evs g = Some g' ->
  gui_reachable py_int py_float g'.
Proof.
  induction evs as [|ev evs IH]; intros g g' Hg; simpl.
  - intros [= <-]. exact Hg.
  - destruct (handle py_int py_float fuel ev g) as [g1|] eqn:Hev; [|discriminate].
    apply IH. eapply gui_event; [exact Hg | exact Hev].
Qed.

Lemma opened_reachable g :
  handle_all demo_int demo_float 1 opening (BankApp_init (fun _ => 0)) = Some g ->
  gui_reachable demo_int demo_float g.
Proof. apply handle_all_reachable. apply gui_start. Qed.

Lemma on_withdraw_dialog_matches_console_witness :
  returned (withdraw falice (float_of_Z 500)) = false /\
  exists g',
    on_withdraw demo_int demo_float (session "500") = Some g' /\
    heap (bank g') = heap (bank (session "500")) /\
    ((dialogs g' = dialogs (session "500") ++
        [showerror "Error" [Lit "Invalid withdrawal amount. Must be positive."]] /\
      stdout (bank g') = stdout (bank (session "500")) ++ [MsgInvalidWithdrawal]) \/
     (dialogs g' = dialogs (session "500") ++ [showerror "Error" [Lit "Insufficient funds."]] /\
      stdout (bank g') = stdout (bank (session "500")) ++ [MsgInsufficientFunds])).
Proof.
  split; [reflexivity|].
  exact (on_withdraw_dialog_matches_console demo_int demo_float (session "500")
           1000000000 (float_of_Z 500) 0%nat falice
           eq_refl eq_refl eq_refl eq_refl ltac:(vm_compute; discriminate) eq_refl eq_refl).
Defined.

Lemma on_withdraw_nan_is_misreported_witness :
  demo_float (entries (session "nan") (amount_entry WithdrawPage)) = Some nan /\
  exists g',
    on_withdraw demo_int demo_float (session "nan") = Some g' /\
    heap (bank g') = heap (bank (session "nan")) /\
    accounts (bank g') = accounts (bank (session "nan")) /\
    dialogs g' = dialogs (session "nan") ++ [showerror "Error" [Lit "Insufficient funds."]] /\
    stdout (bank g') = stdout (bank (session "nan")) ++ [MsgInvalidWithdrawal].
Proof.
  split; [reflexivity|].
  exact (on_withdraw_nan_is_misreported demo_int demo_float (session "nan")
           1000000000 0%nat falice eq_refl eq_refl eq_refl eq_refl).
Defined.


Lemma handlers_refuse_unknown_accounts_witness :
  no_such_account demo_int (acc_num_entry DepositPage) stranger_session /\
  refuses (on_deposit demo_int demo_float) stranger_session /\
  refuses (on_withdraw demo_int demo_float) stranger_session /\
  refuses (on_check demo_int) stranger_session /\
  refuses (on_details demo_int) stranger_session /\
  refuses (on_close demo_int true) stranger_session.
Proof.
  destruct (handlers_refuse_unknown_accounts demo_int demo_float stranger_session)
    as (Hd & Hw & Hc & Hi & Hx).
  split; [reflexivity|].
  split; [exact (Hd (or_introl eq_refl))|].
  split; [exact (Hw (or_introl eq_refl))|].
  split; [exact (Hc eq_refl)|].
  split; [exact (Hi eq_refl) | exact (Hx true eq_refl)].
Defined.


Lemma on_deposit_accepted_witness :
  gtb (float_of_Z 50) zero = true /\
  exists g',
    on_deposit demo_int demo_float (session "50") = Some g' /\
    account_of (bank g') 1000000000 =
      Some (set_balance falice (add (balance falice) (float_of_Z 50))) /\
    dialogs g' = dialogs (session "50") ++
      [showinfo "Success"
         [Lit "Deposited $"; Money (float_of_Z 50); Lit "."; Lit nl;
          Lit "New Balance: $"; Money (add (balance falice) (float_of_Z 50))]] /\
    entries g' (acc_num_entry DepositPage) = EmptyString /\
    entries g' (amount_entry DepositPage) = EmptyString /\
    raised g' = StartPage.
Proof.
  split; [reflexivity|].
  exact (on_deposit_accepted demo_int demo_float (session "50") 1000000000
           (float_of_Z 50) 0%nat falice eq_refl eq_refl eq_refl eq_refl eq_refl).
Defined.

Lemma window_drives_the_bank_by_core_operations_witness :
  exists g,
    handle_all demo_int demo_float 1 opening (BankApp_init (fun _ => 0)) = Some g /\
    gui_reachable demo_int demo_float g /\
    reachable (bank g) /\
    find_account 1000000000 (bank g) = Some 0%nat /\
    exists self, heap (bank g) !! 0%nat = Some self /\ account_number self = 1000000000.
Proof.
  eexists. split; [reflexivity|].
  split; [exact (opened_reachable _ eq_refl)|].
  destruct (window_drives_the_bank_by_core_operations demo_int demo_float _
              (opened_reachable _ eq_refl)) as [Hs Hfound].
  split; [exact Hs|]. split; [reflexivity|].
  exact (proj2 (Hfound 1000000000 0%nat eq_refl)).
Defined.

Lemma window_accounts_have_holder_and_type_witness :
  exists g,
    handle_all demo_int demo_float 1 opening (BankApp_init (fun _ => 0)) = Some g /\
    gui_reachable demo_int demo_float g /\
    holders_named (bank g).
Proof.
  eexists. split; [reflexivity|].
  split; [exact (opened_reachable _ eq_refl)|].
  exact (window_accounts_have_holder_and_type demo_int demo_float _
           (opened_reachable _ eq_refl)).
Defined.

Lemma listing_page_shows_each_account_witness :
  exists g,
    handle_all demo_int demo_float 1 opening (BankApp_init (fun _ => 0)) = Some g /\
    gui_reachable demo_int demo_float g /\
    text_area (show_frame AllAccountsPage g) = account_lines falice /\
    bank (show_frame AllAccountsPage g) = bank g.
Proof.
  eexists. split; [reflexivity|].
  split; [exact (opened_reachable _ eq_refl)|].
  split; [reflexivity|].
  exact (proj1 (listing_page_shows_each_account demo_int demo_float _
                  (opened_reachable _ eq_refl))).
Defined.

Lemma on_create_accepted_witness :
  demo_float (entries repeating_form InitialDeposit) = Some (float_of_Z 50) /\
  ltb (float_of_Z 50) zero = false /\
  dict_contains (drawn (bank repeating_form) 2) (accounts (bank repeating_form)) = false /\
  exists g' n,
    on_create demo_float 3 repeating_form = Some g' /\
    dict_contains n (accounts (bank repeating_form)) = false /\
    account_of (bank g') n = Some (mkAccount n "Bob" "Checking" (float_of_Z 50)) /\
    dialogs g' = dialogs repeating_form ++
      [showinfo "Success"
         [Lit "Account created for "; Lit "Bob"; Lit "!"; Lit nl;
          Lit "Account Number: "; Num n]] /\
    entries g' HoldersName = EmptyString /\
    entries g' AccountType = EmptyString /\
    entries g' InitialDeposit = EmptyString /\
    raised g' = StartPage.
Proof.
  split; [reflexivity|]. split; [reflexivity|]. split; [reflexivity|].
  exact (on_create_accepted demo_float repeating_form (float_of_Z 50) 2 3
           eq_refl eq_refl eq_refl eq_refl eq_refl (Nat.lt_succ_diag_r 2)).
Defined.

End GuiRuns.
